(** * Commit-message formatting hook: model and properties

    Shallow embedding of [hooks/format_commit_msg.py] (class [Commit] and
    [main]) and of the type-extraction step of the older
    [pre_commit_hooks/format_commit_msg.py].

    Python text is a sequence of Unicode code points; the object's fields
    are mutated method after method, and every failure is an exception.
    The model therefore threads the object and its surroundings (message
    file, checked-out branch, standard output) through a small monad in
    which a raised exception keeps the state reached so far. *)

From Stdlib Require Import NArith List Ascii String Bool Lia Permutation.
Import ListNotations.

Local Open Scope N_scope.

(** ** Python text *)

(** A character is a code point, a [str] a list of them. *)
Abbreviation char := N (only parsing).
Abbreviation str := (list N) (only parsing).

(** Literals of the source are ASCII; [py "feat"] is the text of one. *)
Definition py (lit : string) : str :=
  List.map N_of_ascii (list_ascii_of_string lit).

Definition str_eq_dec : forall x y : str, {x = y} + {x <> y} :=
  list_eq_dec N.eq_dec.

(** [x == y] on text. *)
Definition str_eqb (x y : str) : bool :=
  if str_eq_dec x y then true else false.

(** [x in l] for a list of text. *)
Definition contains (l : list str) (x : str) : bool :=
  existsb (str_eqb x) l.

Definition between (lo hi c : char) : bool := (lo <=? c) && (c <=? hi).

(** The character classes of the patterns: [[A-Za-z]] and [[0-9]]. *)
Definition is_letter (c : char) : bool := between 65 90 c || between 97 122 c.
Definition is_digit (c : char) : bool := between 48 57 c.
Definition is_ascii (c : char) : bool := c <? 128.

(** [str.isspace] for one code point: the characters removed by
    [str.strip()] when it is called without argument. *)
Definition isspace (c : char) : bool :=
  between 9 13 c || between 28 32 c || (c =? 133) || (c =? 160)
  || (c =? 5760) || between 8192 8202 c || (c =? 8232) || (c =? 8233)
  || (c =? 8239) || (c =? 8287) || (c =? 12288).

Fixpoint dropWhile (p : char -> bool) (x : str) : str :=
  match x with
  | [] => []
  | c :: r => if p c then dropWhile p r else x
  end.

Fixpoint takeWhile (p : char -> bool) (x : str) : str :=
  match x with
  | [] => []
  | c :: r => if p c then c :: takeWhile p r else []
  end.

Definition lstrip (x : str) : str := dropWhile isspace x.
Definition rstrip (x : str) : str := rev (dropWhile isspace (rev x)).

(** [x.strip()] *)
Definition strip (x : str) : str := lstrip (rstrip x).

(** What is left after a run starts outside the class. *)
Definition stops (p : char -> bool) (x : str) : Prop :=
  match x with
  | [] => True
  | c :: _ => p c = false
  end.

(** A text is trimmed when it neither starts nor ends with white space. *)
Definition trimmed (x : str) : Prop := stops isspace x /\ stops isspace (rev x).

(** [x.split(sep)] for a one-character separator: never the empty list. *)
Fixpoint split (sep : char) (x : str) : list str :=
  match x with
  | [] => [[]]
  | c :: r =>
      if c =? sep then [] :: split sep r
      else match split sep r with
           | [] => [[c]]
           | seg :: segs => (c :: seg) :: segs
           end
  end.

(** [sep.join(l)] *)
Fixpoint join (sep : str) (l : list str) : str :=
  match l with
  | [] => []
  | [x] => x
  | x :: r => x ++ sep ++ join sep r
  end.

Definition ascii_lower (c : char) : char := if between 65 90 c then c + 32 else c.
Definition ascii_upper (c : char) : char := if between 97 122 c then c - 32 else c.

(** What the interpreter decides and the repository does not: the Unicode
    case conversions of text that is not pure ASCII (they follow the
    Unicode tables and are not character-wise), and the order in which a
    [set] of text is iterated (it follows the per-process string hash). *)
Class PyRuntime := {
  unicode_lower : str -> str;
  unicode_upper : str -> str;
  set_order : list str -> list str;
  set_order_perm : forall l, Permutation (nodup str_eq_dec l) (set_order l)
}.

Section Text.
Context {rt : PyRuntime}.

(** [x.lower()] and [x.upper()] *)
Definition lower (x : str) : str :=
  if forallb is_ascii x then List.map ascii_lower x else unicode_lower x.
Definition upper (x : str) : str :=
  if forallb is_ascii x then List.map ascii_upper x else unicode_upper x.

(** [repr(x)], exact for printable text without quote or backslash, which
    is what the skip prefixes are. *)
Definition repr (x : str) : str := py "'" ++ x ++ py "'".

(** [str({...})] of a set of text built from the elements [l]. *)
Definition set_str (l : list str) : str :=
  py "{" ++ join (py ", ") (List.map repr (set_order l)) ++ py "}".

End Text.

(** ** Regular expressions of the source

    None of the calls passes [re.MULTILINE], so [^] only matches at the
    start of the text and [re.search] can only succeed at position 0.
    After the greedy run of a character class the next character is
    outside the class, so no shorter run can be followed by [:] or [-]:
    backtracking never finds another match and the result is determined by
    the maximal run. *)

Fixpoint starts_with (p x : str) : bool :=
  match p, x with
  | [], _ => true
  | a :: p', b :: x' => (a =? b) && starts_with p' x'
  | _ :: _, [] => false
  end.

(** [re.search(r"^[A-Za-z]+(?=LA)", x)] for a literal lookahead [LA]:
    [Some] of the matched text [match[0]], or [None]. *)
Definition re_search_type (la : str) (x : str) : option str :=
  match takeWhile is_letter x with
  | [] => None
  | tok => if starts_with la (dropWhile is_letter x) then Some tok else None
  end.

(** [re.search(r"^[A-Za-z]+-[0-9]+$", x)]: [$] matches at the end of the
    text and also just before a line feed that ends the text. *)
Definition re_search_issue (x : str) : option str :=
  let letters := takeWhile is_letter x in
  match letters, dropWhile is_letter x with
  | _ :: _, c :: r =>
      if c =? 45 then
        let digits := takeWhile is_digit r in
        match digits, dropWhile is_digit r with
        | _ :: _, [] => Some (letters ++ 45 :: digits)
        | _ :: _, [c'] => if c' =? 10 then Some (letters ++ 45 :: digits) else None
        | _, _ => None
        end
      else None
  | _, _ => None
  end.

(** ** The object, its surroundings and the monad of methods *)

(** The fields of a [Commit] instance; [None] is Python's [None]. *)
Record Commit := mkCommit {
  message_fp : str;
  default_commit_type : option str;
  issue_no : option str;
  commit_message : option str;
  commit_type : option str;
  updated_commit_message : option str;
  _commit_types : list str;
  _skip_prefixes : list str;
  branch_name : option str;
  skipped : bool
}.

(** What the methods reach outside the object: the text of the file at
    [message_fp] (as [f.read()] returns it), the name git reports for the
    checked-out branch, and the lines printed so far. *)
Record World := mkWorld {
  message_file : str;
  active_branch : str;
  stdout : list str
}.

Record State := mkState { self : Commit; world : World }.

Inductive exn :=
| ValueError (msg : str)
| IndexError
| TypeError.

(** A method either returns or raises; in both cases the object and the
    world are as the method left them. *)
Inductive outcome (S A : Type) :=
| Returned (a : A) (st : S)
| Raised (e : exn) (st : S).
Arguments Returned {S A} a st.
Arguments Raised {S A} e st.

Definition M (S A : Type) := S -> outcome S A.

Definition ret {S A} (a : A) : M S A := fun st => Returned a st.
Definition bind {S A B} (c : M S A) (k : A -> M S B) : M S B :=
  fun st => match c st with
            | Returned a st' => k a st'
            | Raised e st' => Raised e st'
            end.
Definition raise {S A} (e : exn) : M S A := fun st => Raised e st.

Notation "x <- c ;; k" := (bind c (fun x => k))
  (at level 61, c at next level, right associativity).
Notation "c ;; k" := (bind c (fun _ => k))
  (at level 61, right associativity).

Definition get_self : M State Commit := fun st => Returned (self st) st.
Definition get_world : M State World := fun st => Returned (world st) st.
Definition update_self (f : Commit -> Commit) : M State unit :=
  fun st => Returned tt (mkState (f (self st)) (world st)).
Definition update_world (f : World -> World) : M State unit :=
  fun st => Returned tt (mkState (self st) (f (world st))).

(** Attribute assignments [self.field = v]. *)
Definition set_default_commit_type (v : option str) (c : Commit) : Commit :=
  mkCommit (message_fp c) v (issue_no c) (commit_message c) (commit_type c)
    (updated_commit_message c) (_commit_types c) (_skip_prefixes c)
    (branch_name c) (skipped c).
Definition set_issue_no (v : option str) (c : Commit) : Commit :=
  mkCommit (message_fp c) (default_commit_type c) v (commit_message c)
    (commit_type c) (updated_commit_message c) (_commit_types c)
    (_skip_prefixes c) (branch_name c) (skipped c).
Definition set_commit_message (v : option str) (c : Commit) : Commit :=
  mkCommit (message_fp c) (default_commit_type c) (issue_no c) v
    (commit_type c) (updated_commit_message c) (_commit_types c)
    (_skip_prefixes c) (branch_name c) (skipped c).
Definition set_commit_type (v : option str) (c : Commit) : Commit :=
  mkCommit (message_fp c) (default_commit_type c) (issue_no c)
    (commit_message c) v (updated_commit_message c) (_commit_types c)
    (_skip_prefixes c) (branch_name c) (skipped c).
Definition set_updated_commit_message (v : option str) (c : Commit) : Commit :=
  mkCommit (message_fp c) (default_commit_type c) (issue_no c)
    (commit_message c) (commit_type c) v (_commit_types c)
    (_skip_prefixes c) (branch_name c) (skipped c).
Definition set_branch_name (v : option str) (c : Commit) : Commit :=
  mkCommit (message_fp c) (default_commit_type c) (issue_no c)
    (commit_message c) (commit_type c) (updated_commit_message c)
    (_commit_types c) (_skip_prefixes c) v (skipped c).

(** [print(line)] *)
Definition print (line : str) : M State unit :=
  update_world (fun w => mkWorld (message_file w) (active_branch w)
                                 (stdout w ++ [line])).

(** [l[i]] on a list: out of range raises [IndexError]. *)
Definition subscript {S} (l : list str) (i : nat) : M S str :=
  match nth_error l i with
  | Some x => ret x
  | None => raise IndexError
  end.

(** An optional text inside an f-string: [None] prints as its name. *)
Definition fmt (o : option str) : str :=
  match o with
  | Some x => x
  | None => py "None"
  end.

(** ** hooks/format_commit_msg.py *)

Definition DEFAULT_COMMIT_TYPES : list str :=
  [py "fix"; py "feat"; py "build"; py "chore"; py "ci"; py "docs";
   py "style"; py "refactor"; py "perf"; py "test"].
Definition DEFAULT_SKIP_PREFIXES : list str :=
  [py "skip"; py "no-verify"; py "s"].

(** The texts of the four [ValueError]s. *)
Definition no_issue_msg : str :=
  py "Branch name contains a type but no jira issue no.".
Definition unresolved_msg {rt : PyRuntime} (c : Commit) (message : str) : str :=
  py "Commit type could not be determined from the branch "
  ++ py "name '" ++ fmt (branch_name c) ++ py "' or the commit message "
  ++ py "'" ++ strip message ++ py "'. Start the commit "
  ++ py "message with one of "
  ++ set_str (List.map (fun p => p ++ py ":") (_skip_prefixes c))
  ++ py " to skip this "
  ++ py "check.".
Definition disallowed_msg {rt : PyRuntime} (token : str) : str :=
  py "Commit type '" ++ lower token ++ py "' is not allowed according to "
  ++ py "conventional commit.".
Definition incomplete_msg : str :=
  py "Either commit_type of issue_no could not be determined.".

(** The error names of the specification. *)
Definition InvalidBranchFormat : exn := ValueError no_issue_msg.
Definition UnresolvedCommitType {rt : PyRuntime} (c : Commit) (message : str) : exn :=
  ValueError (unresolved_msg c message).
Definition DisallowedCommitType {rt : PyRuntime} (token : str) : exn :=
  ValueError (disallowed_msg token).
Definition IncompleteResolution : exn := ValueError incomplete_msg.

(** The branch a [Commit] works on: the one it was given, or the one git
    reports when it was given none (or an empty name). *)
Definition branch_of (given : option str) (w : World) : str :=
  match given with
  | Some (ch :: r) => ch :: r
  | _ => active_branch w
  end.

(** The attributes as [__init__] assigns them before it looks at the
    branch. *)
Definition fresh_commit (fp : str) (branch : option str) : Commit :=
  mkCommit fp None None None None None DEFAULT_COMMIT_TYPES
           DEFAULT_SKIP_PREFIXES branch false.

Section Hooks.
Context {rt : PyRuntime}.

(** [Commit._set_branch_info] *)
Definition _set_branch_info : M State unit :=
  c <- get_self ;;
  w <- get_world ;;
  let name := branch_of (branch_name c) w in
  update_self (set_branch_name (Some name)) ;;
  let branch_name_parts := split 47 name in
  first <- subscript branch_name_parts 0 ;;
  if negb (contains (_commit_types c) (lower first)) then ret tt
  else
    let default := lower first in
    second <- subscript branch_name_parts 1 ;;
    match re_search_issue second with
    | None => raise InvalidBranchFormat
    | Some match0 =>
        update_self (set_default_commit_type (Some default)) ;;
        update_self (set_issue_no (Some match0))
    end.

(** [Commit.__init__] *)
Definition __init__ (fp : str) (branch : option str) (w : World) : outcome State unit :=
  _set_branch_info (mkState (fresh_commit fp branch) w).

(** [Commit._read_commit_message] *)
Definition _read_commit_message : M State unit :=
  w <- get_world ;;
  update_self (set_commit_message (Some (message_file w))).

(** [Commit._write_commit_message]: opening for writing empties the file
    before [f.write] looks at its argument. *)
Definition _write_commit_message : M State unit :=
  c <- get_self ;;
  update_world (fun w => mkWorld [] (active_branch w) (stdout w)) ;;
  match updated_commit_message c with
  | None => raise TypeError
  | Some text =>
      update_world (fun w => mkWorld text (active_branch w) (stdout w))
  end.

(** [Commit._extract_type_from_commit_message] *)
Definition _extract_type_from_commit_message : M State unit :=
  c <- get_self ;;
  match commit_message c with
  | None => raise TypeError
  | Some message =>
      match re_search_type (py ":") message with
      | None =>
          match default_commit_type c with
          | None => raise (UnresolvedCommitType c message)
          | Some _ => update_self (set_commit_type (default_commit_type c))
          end
      | Some match0 =>
          if contains (_skip_prefixes c ++ _commit_types c) (lower match0) then
            update_self (set_commit_type (Some match0)) ;;
            update_self (set_commit_message
              (Some (strip (skipn (List.length match0 + 1)%nat message))))
          else raise (DisallowedCommitType match0)
      end
  end.

(** [Commit._format_commit_message] *)
Definition _format_commit_message : M State unit :=
  c <- get_self ;;
  if match commit_type c with
     | Some t => contains (_skip_prefixes c) t
     | None => false
     end
  then update_self (set_updated_commit_message (commit_message c))
  else
    match commit_type c, issue_no c with
    | Some t, Some i =>
        print (py "Extracted commit_type: '" ++ t ++ py "' and "
               ++ py "issue_no: '" ++ i ++ py "'.") ;;
        update_self (set_updated_commit_message
          (Some (upper i ++ py "(" ++ lower t ++ py "): "
                 ++ fmt (commit_message c))))
    | _, _ => raise IncompleteResolution
    end.

(** [Commit.format_message] *)
Definition format_message : M State unit :=
  _read_commit_message ;;
  _extract_type_from_commit_message ;;
  _format_commit_message ;;
  _write_commit_message.

(** [Commit(message_fp=fp, branch_name=branch).format_message()], the
    whole operation on one branch and one message file. *)
Definition run (fp : str) (branch : option str) (w : World) : outcome State unit :=
  match __init__ fp branch w with
  | Returned _ st => format_message st
  | Raised e st => Raised e st
  end.

(** What [main] hands back to the process: an exit status, or an
    exception nobody caught. *)
Inductive exit := Exit (status : N) | Uncaught (e : exn).

(** [main(input_args)] from the point where [argparse] has taken every
    argument as a positional one, in a world where git reports a branch and
    the message file can be read and written. Outside that scope lie
    [argparse] stopping the process on an option-like argument, git without
    a branch and the errors of the file system. *)
Definition main (input_args : list str) (w : World) : exit * World :=
  match input_args with
  | [] => (Uncaught IndexError, w)
  | fp :: _ =>
      match run fp None w with
      | Returned _ st => (Exit 0, world st)
      | Raised (ValueError e) st =>
          match print e st with
          | Returned _ st' => (Exit 1, world st')
          | Raised _ st' => (Exit 1, world st')
          end
      | Raised e st => (Uncaught e, world st)
      end
  end.

End Hooks.

(** ** pre_commit_hooks/format_commit_msg.py

    The older class: five fields, the vocabulary as class constants, and a
    type-extraction step that wants a colon and a space after the token
    and cuts the message without trimming it. *)
Module PreCommitHooks.

Record Commit := mkCommit {
  message_fp : str;
  default_commit_type : option str;
  issue_no : option str;
  commit_message : option str;
  commit_type : option str
}.

Definition COMMIT_TYPES : list str :=
  [py "fix"; py "feat"; py "build"; py "chore"; py "ci"; py "docs";
   py "style"; py "refactor"; py "perf"; py "test"].
Definition SKIP_PREFIXES : list str := [py "skip"; py "no-verify"; py "s"].

Definition set_commit_message (v : option str) (c : Commit) : Commit :=
  mkCommit (message_fp c) (default_commit_type c) (issue_no c) v (commit_type c).
Definition set_commit_type (v : option str) (c : Commit) : Commit :=
  mkCommit (message_fp c) (default_commit_type c) (issue_no c)
    (commit_message c) v.

Definition get_self : M Commit Commit := fun c => Returned c c.
Definition update_self (f : Commit -> Commit) : M Commit unit :=
  fun c => Returned tt (f c).

Definition unresolved_msg : str :=
  py "Commit type could not be determined from the branch "
  ++ py "name or the commit message".
Definition disallowed_msg {rt : PyRuntime} (token : str) : str :=
  py "commit type '" ++ lower token ++ py "' is not allowed according to "
  ++ py "conventional commit".

(** [Commit._extract_type_from_commit_message] *)
Definition _extract_type_from_commit_message {rt : PyRuntime} : M Commit unit :=
  c <- get_self ;;
  match commit_message c with
  | None => raise TypeError
  | Some message =>
      match re_search_type (py ": ") message with
      | None =>
          match default_commit_type c with
          | None => raise (ValueError unresolved_msg)
          | Some _ => update_self (set_commit_type (default_commit_type c))
          end
      | Some match0 =>
          if contains (SKIP_PREFIXES ++ COMMIT_TYPES) (lower match0) then
            update_self (set_commit_type (Some match0)) ;;
            update_self (set_commit_message
              (Some (skipn (List.length match0 + 2)%nat message)))
          else raise (ValueError (disallowed_msg match0))
      end
  end.

End PreCommitHooks.

(** ** The rest of the older class

    Construction, reading, formatting, writing and [main] of
    [pre_commit_hooks/format_commit_msg.py], around the extraction step
    above. The older formatting step calls [upper] on the issue number
    without looking at it first, so this class can also fail with
    [AttributeError]; and it takes the branch from git only. *)
Module PreCommitHooksClass.

(** An exception of the newer class, or the [AttributeError] of a method
    called on [None]. *)
Inductive fault :=
| Exn (e : exn)
| AttributeError.

Record State := mkState { self : PreCommitHooks.Commit; world : World }.

Inductive result (A : Type) :=
| Done (a : A) (st : State)
| Failed (f : fault) (st : State).
Arguments Done {A} a st.
Arguments Failed {A} f st.

Definition Method (A : Type) := State -> result A.

Definition ret {A} (a : A) : Method A := fun st => Done a st.
Definition bind {A B} (c : Method A) (k : A -> Method B) : Method B :=
  fun st => match c st with
            | Done a st' => k a st'
            | Failed f st' => Failed f st'
            end.
Definition raise {A} (f : fault) : Method A := fun st => Failed f st.

#[local, warning="-notation-overridden"]
Notation "x <- c ;; k" := (bind c (fun x => k))
  (at level 61, c at next level, right associativity).
#[local, warning="-notation-overridden"]
Notation "c ;; k" := (bind c (fun _ => k))
  (at level 61, right associativity).

Definition get_self : Method PreCommitHooks.Commit :=
  fun st => Done (self st) st.
Definition get_world : Method World := fun st => Done (world st) st.
Definition update_self (f : PreCommitHooks.Commit -> PreCommitHooks.Commit)
  : Method unit :=
  fun st => Done tt (mkState (f (self st)) (world st)).
Definition update_world (f : World -> World) : Method unit :=
  fun st => Done tt (mkState (self st) (f (world st))).

(** A method of the object alone, run inside the object and its world. *)
Definition lift {A} (c : M PreCommitHooks.Commit A) : Method A :=
  fun st => match c (self st) with
            | Returned a c' => Done a (mkState c' (world st))
            | Raised e c' => Failed (Exn e) (mkState c' (world st))
            end.

Definition set_default_commit_type (v : option str) (c : PreCommitHooks.Commit)
  : PreCommitHooks.Commit :=
  PreCommitHooks.mkCommit (PreCommitHooks.message_fp c) v
    (PreCommitHooks.issue_no c) (PreCommitHooks.commit_message c)
    (PreCommitHooks.commit_type c).
Definition set_issue_no (v : option str) (c : PreCommitHooks.Commit)
  : PreCommitHooks.Commit :=
  PreCommitHooks.mkCommit (PreCommitHooks.message_fp c)
    (PreCommitHooks.default_commit_type c) v
    (PreCommitHooks.commit_message c) (PreCommitHooks.commit_type c).

Definition print (line : str) : Method unit :=
  update_world (fun w => mkWorld (message_file w) (active_branch w)
                                 (stdout w ++ [line])).

Definition subscript (l : list str) (i : nat) : Method str :=
  match nth_error l i with
  | Some x => ret x
  | None => raise (Exn IndexError)
  end.

Section Methods.
Context {rt : PyRuntime}.

(** [Commit._set_branch_info] *)
Definition _set_branch_info : Method unit :=
  w <- get_world ;;
  let branch_name := active_branch w in
  let branch_name_parts := split 47 branch_name in
  first <- subscript branch_name_parts 0 ;;
  if negb (contains PreCommitHooks.COMMIT_TYPES (lower first)) then
    print (py "Commit type and issue_no could not be determined from branch name "
           ++ py "'" ++ branch_name ++ py "'.")
  else
    let default := lower first in
    second <- subscript branch_name_parts 1 ;;
    match re_search_issue second with
    | None =>
        raise (Exn (ValueError
                 (py "Branch name contains a type but no jira issue no.")))
    | Some match0 =>
        update_self (set_default_commit_type (Some default)) ;;
        update_self (set_issue_no (Some match0))
    end.

(** [Commit.__init__] *)
Definition __init__ (fp : str) (w : World) : result unit :=
  _set_branch_info (mkState (PreCommitHooks.mkCommit fp None None None None) w).

(** [Commit._read_commit_message] *)
Definition _read_commit_message : Method unit :=
  w <- get_world ;;
  update_self (PreCommitHooks.set_commit_message (Some (message_file w))).

(** [Commit._write_commit_message] *)
Definition _write_commit_message : Method unit :=
  c <- get_self ;;
  update_world (fun w => mkWorld [] (active_branch w) (stdout w)) ;;
  match PreCommitHooks.commit_message c with
  | None => raise (Exn TypeError)
  | Some text =>
      update_world (fun w => mkWorld text (active_branch w) (stdout w))
  end.

(** [Commit._extract_type_from_commit_message], as modelled above. *)
Definition _extract_type_from_commit_message : Method unit :=
  lift PreCommitHooks._extract_type_from_commit_message.

(** [Commit._format_commit_message]: the f-string evaluates
    [self.issue_no.upper()] first, then [self.commit_type.lower()]. *)
Definition _format_commit_message : Method unit :=
  c <- get_self ;;
  if match PreCommitHooks.commit_type c with
     | Some t => contains PreCommitHooks.SKIP_PREFIXES t
     | None => false
     end
  then ret tt
  else
    match PreCommitHooks.issue_no c, PreCommitHooks.commit_type c with
    | Some i, Some t =>
        update_self (PreCommitHooks.set_commit_message
          (Some (upper i ++ py "(" ++ lower t ++ py "): "
                 ++ fmt (PreCommitHooks.commit_message c))))
    | _, _ => raise AttributeError
    end.

(** [Commit.format_message] *)
Definition format_message : Method unit :=
  print (py "Formatting message") ;;
  _read_commit_message ;;
  _extract_type_from_commit_message ;;
  _format_commit_message ;;
  _write_commit_message.

(** [Commit(message_fp=fp).format_message()] *)
Definition run (fp : str) (w : World) : result unit :=
  match __init__ fp w with
  | Done _ st => format_message st
  | Failed f st => Failed f st
  end.

Inductive exit := Exit (status : N) | Uncaught (f : fault).

(** [main(input_args)], in the same scope as the newer [main]; a
    [ValueError] gives status 1 and is not printed. *)
Definition main (input_args : list str) (w : World) : exit * World :=
  match input_args with
  | [] => (Uncaught (Exn IndexError), w)
  | fp :: _ =>
      match run fp w with
      | Done _ st => (Exit 0, world st)
      | Failed (Exn (ValueError _)) st => (Exit 1, world st)
      | Failed f st => (Uncaught f, world st)
      end
  end.

End Methods.

End PreCommitHooksClass.

(** ** A runtime for closed examples

    Closed examples need one interpreter. Their inputs are ASCII, so the
    Unicode conversions are never consulted; this one lists a set in the
    order of first insertion. *)
#[refine] Instance insertion_order_runtime : PyRuntime := {
  unicode_lower := fun x => x;
  unicode_upper := fun x => x;
  set_order := nodup str_eq_dec
}.
Proof. intros l; apply Permutation_refl. Defined.

(** A world holding message [m] while [b] is checked out. *)
Definition world_of (b m : str) : World := mkWorld m b [].

(** What an operation leaves in the message file when it returns, and
    what it raises when it does not. *)
Definition written (o : outcome State unit) : option str :=
  match o with
  | Returned _ st => Some (message_file (world st))
  | Raised _ _ => None
  end.
Definition raised (o : outcome State unit) : option exn :=
  match o with
  | Returned _ _ => None
  | Raised e _ => Some e
  end.

(** The object and the world as an operation left them. *)
Definition final (o : outcome State unit) : State :=
  match o with
  | Returned _ st => st
  | Raised _ st => st
  end.

(** [needle in text] *)
Definition occurs_in (needle text : str) : Prop :=
  exists before after, text = before ++ needle ++ after.

(** ** The specification's wording, for comparison with the code *)

(** The issue pattern as the specification words it: one or more letters,
    a hyphen, one or more digits, and nothing before or after. *)
Definition issue_shaped (x : str) : bool :=
  match takeWhile is_letter x, dropWhile is_letter x with
  | _ :: _, c :: d =>
      (c =? 45) && negb (Nat.eqb (List.length d) 0) && forallb is_digit d
  | _, _ => false
  end.

(** A text without the line feed it may end with. *)
Definition without_final_lf (x : str) : str :=
  match rev x with
  | c :: r => if c =? 10 then rev r else x
  | [] => x
  end.

(** Stripping as the specification words it: the token, its colon and the
    white space right after them go, the rest of the message stays. *)
Definition spec_stripped (token message : str) : str :=
  dropWhile isspace (skipn (List.length token + 1)%nat message).

(** * Properties *)

(** ** Text and lists *)

Lemma str_eqb_eq (x y : str) : str_eqb x y = true <-> x = y.
Proof.
  unfold str_eqb. destruct (str_eq_dec x y); split; congruence.
Qed.

Lemma contains_In (l : list str) (x : str) : contains l x = true <-> In x l.
Proof.
  unfold contains. rewrite existsb_exists. split.
  - intros [y [Hy Heq]]. apply str_eqb_eq in Heq. now subst.
  - intros H. exists x. split; [assumption | now apply str_eqb_eq].
Qed.

Lemma contains_not_In (l : list str) (x : str) :
  contains l x = false <-> ~ In x l.
Proof.
  rewrite <- contains_In. destruct (contains l x); split; congruence.
Qed.

Lemma take_drop_while (p : char -> bool) (x : str) :
  takeWhile p x ++ dropWhile p x = x.
Proof.
  induction x as [|c r IH]; simpl; [reflexivity|].
  destruct (p c); simpl; [now rewrite IH | reflexivity].
Qed.

Lemma takeWhile_all (p : char -> bool) (x : str) :
  forallb p (takeWhile p x) = true.
Proof.
  induction x as [|c r IH]; simpl; [reflexivity|].
  destruct (p c) eqn:E; simpl; [now rewrite E | reflexivity].
Qed.

Lemma dropWhile_stops (p : char -> bool) (x : str) : stops p (dropWhile p x).
Proof.
  induction x as [|c r IH]; simpl; [exact I|].
  destruct (p c) eqn:E; simpl; assumption.
Qed.

Lemma takeWhile_app (p : char -> bool) (a b : str) :
  forallb p a = true -> stops p b -> takeWhile p (a ++ b) = a.
Proof.
  induction a as [|c r IH]; simpl; intros Ha Hb.
  - destruct b as [|c b]; simpl in *; [reflexivity | now rewrite Hb].
  - apply andb_true_iff in Ha as [Hc Hr]. rewrite Hc. now rewrite IH.
Qed.

Lemma dropWhile_app (p : char -> bool) (a b : str) :
  forallb p a = true -> stops p b -> dropWhile p (a ++ b) = b.
Proof.
  induction a as [|c r IH]; simpl; intros Ha Hb.
  - destruct b as [|c b]; simpl in *; [reflexivity | now rewrite Hb].
  - apply andb_true_iff in Ha as [Hc Hr]. rewrite Hc. now apply IH.
Qed.

Lemma starts_with_spec (p x : str) :
  starts_with p x = true <-> exists r, x = p ++ r.
Proof.
  revert x. induction p as [|a p IH]; intros x; simpl.
  - split; [intros _; now exists x | reflexivity].
  - destruct x as [|b x].
    + split; [discriminate | intros [r Hr]; discriminate].
    + rewrite andb_true_iff, IH, N.eqb_eq. split.
      * intros [-> [r ->]]. now exists r.
      * intros [r Hr]. injection Hr as -> ->. split; [reflexivity | now exists r].
Qed.

Lemma stops_suffix (p : char -> bool) (a b : str) :
  b <> [] -> stops p (rev (a ++ b)) -> stops p (rev b).
Proof.
  intros Hb. rewrite rev_app_distr.
  destruct (rev b) as [|c r] eqn:E.
  - apply (f_equal (@rev char)) in E. rewrite rev_involutive in E. now subst.
  - simpl. trivial.
Qed.

(** [strip] removes white space at both ends and nothing else. *)
Lemma strip_spec (x : str) :
  exists pre post,
    x = pre ++ strip x ++ post
    /\ forallb isspace pre = true /\ forallb isspace post = true
    /\ trimmed (strip x).
Proof.
  exists (takeWhile isspace (rstrip x)), (rev (takeWhile isspace (rev x))).
  assert (Hr : x = rstrip x ++ rev (takeWhile isspace (rev x))).
  { unfold rstrip. rewrite <- rev_app_distr, take_drop_while.
    now rewrite rev_involutive. }
  repeat split.
  - unfold strip, lstrip. rewrite app_assoc, take_drop_while. exact Hr.
  - apply takeWhile_all.
  - apply forallb_forall. intros c Hc. apply in_rev in Hc.
    pose proof (takeWhile_all isspace (rev x)) as Hall.
    rewrite forallb_forall in Hall. now apply Hall.
  - apply dropWhile_stops.
  - unfold strip, lstrip.
    destruct (dropWhile isspace (rstrip x)) as [|c r] eqn:E; [exact I|].
    rewrite <- E.
    apply stops_suffix with (a := takeWhile isspace (rstrip x)).
    + rewrite E. discriminate.
    + rewrite take_drop_while. unfold rstrip. rewrite rev_involutive.
      apply dropWhile_stops.
Qed.

(** ** The patterns *)

(** The type pattern matches exactly the texts that begin with letters
    followed by the lookahead, and [match[0]] is that run of letters. *)
Lemma re_search_type_Some (c : char) (la x tok : str) :
  is_letter c = false ->
  re_search_type (c :: la) x = Some tok <->
  tok <> [] /\ forallb is_letter tok = true
  /\ exists rest, x = tok ++ (c :: la) ++ rest.
Proof.
  intros Hc. unfold re_search_type. split.
  - pose proof (take_drop_while is_letter x) as Hx.
    pose proof (takeWhile_all is_letter x) as Hall.
    destruct (takeWhile is_letter x) as [|a r] eqn:E; [discriminate|].
    destruct (starts_with (c :: la) (dropWhile is_letter x)) eqn:Es; [|discriminate].
    intros H. injection H as <-. apply starts_with_spec in Es as [rest Hrest].
    repeat split; [discriminate | assumption |].
    exists rest. now rewrite <- Hrest.
  - intros [Hne [Hall [rest ->]]].
    assert (Hs : stops is_letter ((c :: la) ++ rest)) by exact Hc.
    rewrite (takeWhile_app _ _ _ Hall Hs), (dropWhile_app _ _ _ Hall Hs).
    destruct tok as [|a r]; [congruence|].
    assert (Hsw : starts_with (c :: la) ((c :: la) ++ rest) = true)
      by (apply starts_with_spec; now exists rest).
    now rewrite Hsw.
Qed.

(** No match means no such beginning. *)
Lemma re_search_type_None (c : char) (la x : str) :
  is_letter c = false ->
  re_search_type (c :: la) x = None <->
  forall tok rest, tok <> [] -> forallb is_letter tok = true ->
                   x <> tok ++ (c :: la) ++ rest.
Proof.
  intros Hc. split.
  - intros Hn tok rest Hne Hall Hx.
    assert (H : re_search_type (c :: la) x = Some tok)
      by (apply re_search_type_Some; eauto).
    congruence.
  - intros H. destruct (re_search_type (c :: la) x) as [tok|] eqn:E; [|reflexivity].
    apply re_search_type_Some in E as [Hne [Hall [rest Hx]]]; [|assumption].
    now destruct (H tok rest Hne Hall).
Qed.

Lemma issue_shaped_spec (x : str) :
  issue_shaped x = true <->
  exists l d, l <> [] /\ d <> [] /\ forallb is_letter l = true
              /\ forallb is_digit d = true /\ x = l ++ 45 :: d.
Proof.
  unfold issue_shaped. split.
  - pose proof (take_drop_while is_letter x) as Hx.
    pose proof (takeWhile_all is_letter x) as Hall.
    destruct (takeWhile is_letter x) as [|a l] eqn:El; [discriminate|].
    destruct (dropWhile is_letter x) as [|c d] eqn:Ed; [discriminate|].
    intros H. apply andb_true_iff in H as [H Hd].
    apply andb_true_iff in H as [Hc Hlen]. apply N.eqb_eq in Hc. subst c.
    exists (a :: l), d. repeat split; try assumption; try discriminate.
    + destruct d; discriminate.
    + exact (eq_sym Hx).
  - intros [l [d [Hl [Hd [Hal [Had ->]]]]]].
    assert (Hs : stops is_letter (45 :: d)) by reflexivity.
    rewrite (takeWhile_app _ _ _ Hal Hs), (dropWhile_app _ _ _ Hal Hs).
    destruct l as [|a l]; [congruence|].
    destruct d as [|b d]; [congruence|].
    now rewrite Had.
Qed.

(** The issue pattern of the code accepts an issue-shaped text, alone or
    followed by one line feed, and [match[0]] is the issue-shaped part. *)
Lemma re_search_issue_Some (x m : str) :
  re_search_issue x = Some m <->
  issue_shaped m = true /\ (x = m \/ x = m ++ [10]).
Proof.
  split.
  - unfold re_search_issue.
    pose proof (take_drop_while is_letter x) as Hx.
    pose proof (takeWhile_all is_letter x) as Hall.
    destruct (takeWhile is_letter x) as [|a l] eqn:El; [discriminate|].
    destruct (dropWhile is_letter x) as [|c r] eqn:Er; [discriminate|].
    destruct (N.eqb_spec c 45) as [-> |]; [|discriminate].
    pose proof (take_drop_while is_digit r) as Hr.
    pose proof (takeWhile_all is_digit r) as Hdall.
    destruct (takeWhile is_digit r) as [|b d] eqn:Ed; [discriminate|].
    assert (Hm : issue_shaped ((a :: l) ++ 45 :: b :: d) = true).
    { apply issue_shaped_spec. exists (a :: l), (b :: d).
      repeat split; try assumption; discriminate. }
    destruct (dropWhile is_digit r) as [|c' [|c'' r']] eqn:Et.
    + intros H. injection H as <-. split; [assumption|]. left.
      rewrite <- Hx, <- Hr. now rewrite app_nil_r.
    + destruct (N.eqb_spec c' 10) as [-> |]; [|discriminate].
      intros H. injection H as <-. split; [assumption|]. right.
      rewrite <- Hx, <- Hr. simpl. now rewrite <- app_assoc.
    + discriminate.
  - intros [Hm Hx]. apply issue_shaped_spec in Hm
      as [l [d [Hl [Hd [Hal [Had ->]]]]]].
    assert (Hx' : exists t, (t = [] \/ t = [10]) /\ x = l ++ 45 :: d ++ t).
    { destruct Hx as [-> | ->]; [exists [] | exists [10]]; split; auto.
      - now rewrite app_nil_r.
      - now rewrite <- app_assoc. }
    destruct Hx' as [t [Ht ->]]. unfold re_search_issue.
    assert (Hs : stops is_letter (45 :: d ++ t)) by reflexivity.
    rewrite (takeWhile_app _ _ _ Hal Hs), (dropWhile_app _ _ _ Hal Hs).
    destruct l as [|a l]; [congruence|]. simpl (45 =? 45).
    assert (Hst : stops is_digit t) by (destruct Ht as [-> | ->]; reflexivity).
    rewrite (takeWhile_app _ _ _ Had Hst), (dropWhile_app _ _ _ Had Hst).
    destruct d as [|b d]; [congruence|].
    destruct Ht as [-> | ->]; reflexivity.
Qed.

Lemma re_search_issue_None (x : str) :
  re_search_issue x = None <->
  issue_shaped x = false /\ forall m, x = m ++ [10] -> issue_shaped m = false.
Proof.
  split.
  - intros Hn. split.
    + destruct (issue_shaped x) eqn:E; [|reflexivity].
      assert (H : re_search_issue x = Some x)
        by (apply re_search_issue_Some; auto).
      congruence.
    + intros m Hx. destruct (issue_shaped m) eqn:E; [|reflexivity].
      assert (H : re_search_issue x = Some m)
        by (apply re_search_issue_Some; auto).
      congruence.
  - intros [Hx Hm]. destruct (re_search_issue x) as [m|] eqn:E; [|reflexivity].
    apply re_search_issue_Some in E as [Hs [-> | ->]]; [congruence|].
    specialize (Hm m eq_refl). congruence.
Qed.

(** ** Splitting a branch name *)

Lemma split_no_sep (sep : char) (x : str) :
  ~ In sep x -> split sep x = [x].
Proof.
  induction x as [|c r IH]; simpl; intros H; [reflexivity|].
  destruct (N.eqb_spec c sep) as [->|Hne]; [tauto|].
  rewrite IH; [reflexivity | tauto].
Qed.

Lemma split_segment (sep : char) (a b : str) :
  ~ In sep a -> split sep (a ++ sep :: b) = a :: split sep b.
Proof.
  induction a as [|c r IH]; simpl; intros H.
  - now rewrite N.eqb_refl.
  - destruct (N.eqb_spec c sep) as [->|Hne]; [tauto|].
    rewrite IH; [reflexivity | tauto].
Qed.

(** ** The object after construction *)

Section HooksFacts.
Context {rt : PyRuntime}.

(** [__init__] in one piece: the branch name is settled first; nothing
    else is assigned unless both the type and the issue are found. *)
Lemma init_spec (fp : str) (branch : option str) (w : World) :
  let name := branch_of branch w in
  let c0 := set_branch_name (Some name) (fresh_commit fp branch) in
  __init__ fp branch w =
  match split 47 name with
  | [] => Raised IndexError (mkState c0 w)
  | first :: rest =>
      if contains DEFAULT_COMMIT_TYPES (lower first) then
        match rest with
        | [] => Raised IndexError (mkState c0 w)
        | second :: _ =>
            match re_search_issue second with
            | None => Raised InvalidBranchFormat (mkState c0 w)
            | Some i =>
                Returned tt
                  (mkState (set_issue_no (Some i)
                     (set_default_commit_type (Some (lower first)) c0)) w)
            end
        end
      else Returned tt (mkState c0 w)
  end.
Proof.
  intros name c0.
  unfold __init__, _set_branch_info, bind, get_self, get_world, update_self,
    subscript, ret, raise.
  cbn [self world branch_name fresh_commit _commit_types].
  fold name. destruct (split 47 name) as [|first rest]; [reflexivity|].
  cbn [nth_error].
  destruct (contains DEFAULT_COMMIT_TYPES (lower first)); cbn [negb];
    [|reflexivity].
  destruct rest as [|second rest]; [reflexivity|]. cbn [nth_error].
  destruct (re_search_issue second); reflexivity.
Qed.

(** The scenarios of [test/test_format_commit_msg.py]. *)
Example test_one_branch_default :
  written (run (py "msg") (Some (py "feat/ABC-123/my_feat"))
               (world_of [] (py "my message here")))
  = Some (py "ABC-123(feat): my message here").
Proof. reflexivity. Qed.

Example test_one_message_type_wins :
  written (run (py "msg") (Some (py "feat/ABC-456/my_feat"))
               (world_of [] (py "fix: my message here")))
  = Some (py "ABC-456(fix): my message here")
  /\ written (run (py "msg") (Some (py "fix/ABC-789/my_fix"))
                  (world_of [] (py "feat: my message here")))
     = Some (py "ABC-789(feat): my message here").
Proof. split; reflexivity. Qed.

Example test_one_no_issue :
  raised (run (py "msg") (Some (py "fix/my_fix"))
              (world_of [] (py "chore: my message here")))
  = Some InvalidBranchFormat.
Proof. reflexivity. Qed.

Example test_one_no_type :
  raised (run (py "msg") (Some (py "develop")) (world_of [] (py "my message")))
  = Some (ValueError (unresolved_msg
            (set_branch_name (Some (py "develop"))
               (fresh_commit (py "msg") (Some (py "develop"))))
            (py "my message"))).
Proof. reflexivity. Qed.

Example test_one_type_without_issue :
  raised (run (py "msg") (Some (py "develop"))
              (world_of [] (py "feat: my message")))
  = Some IncompleteResolution.
Proof. reflexivity. Qed.

Example test_one_invalid_type :
  raised (run (py "msg") (Some (py "develop"))
              (world_of [] (py "invalidtype: my message")))
  = Some (DisallowedCommitType (py "invalidtype")).
Proof. reflexivity. Qed.

Example test_one_skip :
  written (run (py "msg") (Some (py "develop"))
               (world_of [] (py "skip: my message")))
  = Some (py "my message").
Proof. reflexivity. Qed.

(** ** The methods, one at a time *)

Lemma extract_without_token (c : Commit) (w : World) (message : str) :
  commit_message c = Some message ->
  re_search_type (py ":") message = None ->
  _extract_type_from_commit_message (mkState c w) =
  match default_commit_type c with
  | None => Raised (UnresolvedCommitType c message) (mkState c w)
  | Some d => Returned tt (mkState (set_commit_type (Some d) c) w)
  end.
Proof.
  intros Hm Hre.
  unfold _extract_type_from_commit_message, bind, get_self, update_self, raise.
  cbn [self world]. rewrite Hm, Hre.
  destruct (default_commit_type c); reflexivity.
Qed.

Lemma extract_with_token (c : Commit) (w : World) (message token : str) :
  commit_message c = Some message ->
  re_search_type (py ":") message = Some token ->
  _extract_type_from_commit_message (mkState c w) =
  if contains (_skip_prefixes c ++ _commit_types c) (lower token) then
    Returned tt
      (mkState (set_commit_message
                  (Some (strip (skipn (List.length token + 1)%nat message)))
                  (set_commit_type (Some token) c)) w)
  else Raised (DisallowedCommitType token) (mkState c w).
Proof.
  intros Hm Hre.
  unfold _extract_type_from_commit_message, bind, get_self, update_self, raise.
  cbn [self world]. rewrite Hm, Hre.
  destruct (contains (_skip_prefixes c ++ _commit_types c) (lower token));
    reflexivity.
Qed.

Lemma skipn_token (token rest : str) :
  skipn (List.length token + 1)%nat (token ++ py ":" ++ rest) = rest.
Proof.
  induction token as [|a r IH]; [reflexivity | exact IH].
Qed.

(** C4, as the code has it: when the leading token is in the vocabulary,
    the extraction keeps the token as the commit type and cuts the message
    down to what lies between the white space after the colon and the
    white space at the end of the message; both runs of white space go,
    every character between them stays. *)
Theorem extract_strips_both_ends (c : Commit) (w : World) (message token : str) :
  commit_message c = Some message ->
  re_search_type (py ":") message = Some token ->
  contains (_skip_prefixes c ++ _commit_types c) (lower token) = true ->
  exists before body after,
    message = token ++ py ":" ++ before ++ body ++ after
    /\ forallb isspace before = true /\ forallb isspace after = true
    /\ trimmed body
    /\ _extract_type_from_commit_message (mkState c w) =
       Returned tt (mkState (set_commit_message (Some body)
                               (set_commit_type (Some token) c)) w).
Proof.
  intros Hm Hre Hin.
  rewrite (extract_with_token c w message token Hm Hre), Hin.
  apply re_search_type_Some in Hre as [_ [_ [rest ->]]]; [|reflexivity].
  rewrite skipn_token.
  destruct (strip_spec rest) as [before [after [Hrest [Hb [Ha Ht]]]]].
  exists before, (strip rest), after. repeat split; try assumption; try apply Ht.
  now rewrite <- Hrest.
Qed.

(** C5: with a commit type that is not a skip prefix and an issue number,
    the formatted message is the issue number in upper case, the commit
    type in lower case between parentheses, a colon, a space and the
    message. The test on the skip prefixes is the code's, an exact
    comparison; [not_skip_any_case] below shows that it covers every type
    that is no skip prefix when compared without regard to case. *)
Theorem format_composes (c : Commit) (w : World) (t i message : str) :
  commit_type c = Some t ->
  issue_no c = Some i ->
  commit_message c = Some message ->
  contains (_skip_prefixes c) t = false ->
  exists st,
    _format_commit_message (mkState c w) = Returned tt st
    /\ updated_commit_message (self st)
       = Some (upper i ++ py "(" ++ lower t ++ py "): " ++ message).
Proof.
  intros Ht Hi Hm Hskip.
  unfold _format_commit_message, bind, get_self, update_self, print,
    update_world.
  cbn [self world]. rewrite Ht, Hi, Hm, Hskip.
  eexists. split; reflexivity.
Qed.

(** ** Branches *)

Lemma without_final_lf_app (m : str) : without_final_lf (m ++ [10]) = m.
Proof.
  unfold without_final_lf. rewrite rev_app_distr. cbn [rev app].
  rewrite N.eqb_refl. apply rev_involutive.
Qed.

Lemma re_search_issue_rejects (x : str) :
  issue_shaped x = false ->
  issue_shaped (without_final_lf x) = false ->
  re_search_issue x = None.
Proof.
  intros Hx Hlf. apply re_search_issue_None. split; [assumption|].
  intros m ->. now rewrite without_final_lf_app in Hlf.
Qed.

Lemma split_type_issue (T X tail : str) :
  ~ In 47 T -> ~ In 47 X ->
  tail = [] \/ (exists r, tail = 47 :: r) ->
  exists more, split 47 (T ++ 47 :: X ++ tail) = T :: X :: more.
Proof.
  intros HT HX Htail. rewrite split_segment by assumption.
  destruct Htail as [-> | [r ->]].
  - rewrite app_nil_r, split_no_sep by assumption. now exists [].
  - rewrite split_segment by assumption. now eexists.
Qed.

Lemma branch_of_given (a b : str) (c : char) (w : World) :
  branch_of (Some (a ++ c :: b)) w = a ++ c :: b.
Proof. destruct a; reflexivity. Qed.

(** What the pattern rejects: on a branch [T/X/...] whose first segment
    is a commit type (in any case) and whose second segment is not
    letters-hyphen-digits, not even once a line feed at its end is set
    aside, construction raises the [ValueError] of a branch without issue
    number, and neither [default_commit_type] nor [issue_no] has been
    assigned. *)
Theorem branch_without_issue_rejected
  (fp : str) (w : World) (T X tail : str) :
  ~ In 47 T -> ~ In 47 X ->
  tail = [] \/ (exists r, tail = 47 :: r) ->
  contains DEFAULT_COMMIT_TYPES (lower T) = true ->
  issue_shaped X = false ->
  issue_shaped (without_final_lf X) = false ->
  exists st,
    __init__ fp (Some (T ++ 47 :: X ++ tail)) w = Raised InvalidBranchFormat st
    /\ default_commit_type (self st) = None
    /\ issue_no (self st) = None.
Proof.
  intros HT HX Htail Htype Hx Hlf.
  rewrite init_spec, branch_of_given.
  destruct (split_type_issue T X tail HT HX Htail) as [more ->].
  rewrite Htype, (re_search_issue_rejects X Hx Hlf).
  eexists. repeat split.
Qed.

(** C2, on the code: a branch that is one segment naming a commit type
    makes construction raise [IndexError], with nothing derived from the
    branch, and [main], which only catches [ValueError], lets it through. *)
Theorem bare_type_branch_index_error (fp : str) (w : World) (b : str) :
  ~ In 47 b ->
  contains DEFAULT_COMMIT_TYPES (lower b) = true ->
  (exists st, __init__ fp (Some b) w = Raised IndexError st
              /\ default_commit_type (self st) = None
              /\ issue_no (self st) = None)
  /\ (active_branch w = b -> fst (main [fp] w) = Uncaught IndexError).
Proof.
  intros Hb Htype.
  assert (Hne : branch_of (Some b) w = b).
  { destruct b; [discriminate Htype | reflexivity]. }
  split.
  - rewrite init_spec, Hne, split_no_sep, Htype by assumption.
    eexists. repeat split.
  - intros Hgit. unfold main, run. rewrite init_spec.
    cbn [branch_of]. rewrite Hgit, split_no_sep, Htype by assumption. reflexivity.
Qed.

(** A successful construction that left no default type left no issue
    number either: only the branch name was settled. *)
Lemma init_without_default (fp : str) (branch : option str) (w : World) (st0 : State) :
  __init__ fp branch w = Returned tt st0 ->
  default_commit_type (self st0) = None ->
  st0 = mkState (set_branch_name (Some (branch_of branch w))
                   (fresh_commit fp branch)) w.
Proof.
  rewrite init_spec.
  destruct (split 47 (branch_of branch w)) as [|first rest]; [discriminate|].
  destruct (contains DEFAULT_COMMIT_TYPES (lower first)).
  - destruct rest as [|second rest]; [discriminate|].
    destruct (re_search_issue second); [|discriminate].
    intros H. injection H as <-. discriminate.
  - intros H _. now injection H as <-.
Qed.

(** A successful construction that found a default type found it in the
    vocabulary, together with an issue number. *)
Lemma init_with_default (fp : str) (branch : option str) (w : World)
  (st0 : State) (T : str) :
  __init__ fp branch w = Returned tt st0 ->
  default_commit_type (self st0) = Some T ->
  In T DEFAULT_COMMIT_TYPES
  /\ exists i,
       st0 = mkState (set_issue_no (Some i)
                        (set_default_commit_type (Some T)
                           (set_branch_name (Some (branch_of branch w))
                              (fresh_commit fp branch)))) w.
Proof.
  rewrite init_spec.
  destruct (split 47 (branch_of branch w)) as [|first rest]; [discriminate|].
  destruct (contains DEFAULT_COMMIT_TYPES (lower first)) eqn:E.
  - destruct rest as [|second rest]; [discriminate|].
    destruct (re_search_issue second) as [i|]; [|discriminate].
    intros H. injection H as <-. cbn [self default_commit_type set_issue_no
      set_default_commit_type]. intros HT. injection HT as <-.
    split; [now apply contains_In | now exists i].
  - intros H. injection H as <-. discriminate.
Qed.

(** ** The vocabulary *)

(** The commit types are in lower case already and none is a skip
    prefix. *)
Lemma commit_type_plain (T : str) :
  In T DEFAULT_COMMIT_TYPES ->
  lower T = T /\ contains DEFAULT_SKIP_PREFIXES T = false.
Proof.
  intros H. repeat (destruct H as [<- | H]; [split; reflexivity|]).
  destruct H.
Qed.

Lemma skip_prefix_plain (p : str) :
  In p DEFAULT_SKIP_PREFIXES ->
  lower p = p /\ contains DEFAULT_COMMIT_TYPES p = false.
Proof.
  intros H. repeat (destruct H as [<- | H]; [split; reflexivity|]).
  destruct H.
Qed.

(** A type that is no skip prefix when compared without regard to case
    is no skip prefix for the exact comparison of the code. *)
Lemma not_skip_any_case (t : str) :
  contains DEFAULT_SKIP_PREFIXES (lower t) = false ->
  contains DEFAULT_SKIP_PREFIXES t = false.
Proof.
  intros H. destruct (contains DEFAULT_SKIP_PREFIXES t) eqn:E; [|reflexivity].
  apply contains_In in E. destruct (skip_prefix_plain t E) as [Hl _].
  rewrite Hl in H. apply contains_not_In in H. contradiction.
Qed.

(** A token that names a commit type, in any case, is no skip prefix. *)
Lemma type_token_not_skip (token : str) :
  contains DEFAULT_COMMIT_TYPES (lower token) = true ->
  contains DEFAULT_SKIP_PREFIXES token = false.
Proof.
  intros H. destruct (contains DEFAULT_SKIP_PREFIXES token) eqn:E; [|reflexivity].
  apply contains_In in E. destruct (skip_prefix_plain token E) as [Hl Hn].
  rewrite Hl in H. congruence.
Qed.

(** ** The text of the error about an undetermined type *)

Lemma occurs_in_self (x : str) : occurs_in x x.
Proof. exists [], []. now rewrite app_nil_r. Qed.

Lemma occurs_in_app_r (x a b : str) : occurs_in x b -> occurs_in x (a ++ b).
Proof.
  intros [u [v ->]]. exists (a ++ u), v. now rewrite <- app_assoc.
Qed.

Lemma occurs_in_app_l (x a b : str) : occurs_in x a -> occurs_in x (a ++ b).
Proof.
  intros [u [v ->]]. exists u, (v ++ b). now rewrite <- !app_assoc.
Qed.

Lemma occurs_in_join (sep x : str) (l : list str) :
  In x l -> occurs_in x (join sep l).
Proof.
  induction l as [|y [|z l] IH]; intros H.
  - destruct H.
  - destruct H as [-> | []]. apply occurs_in_self.
  - destruct H as [-> | H].
    + apply occurs_in_app_l, occurs_in_self.
    + change (join sep (y :: z :: l)) with (y ++ sep ++ join sep (z :: l)).
      now apply occurs_in_app_r, occurs_in_app_r, IH.
Qed.

Lemma set_str_lists (l : list str) (x : str) :
  In x l -> occurs_in (repr x) (set_str l).
Proof.
  intros H. unfold set_str.
  apply occurs_in_app_r, occurs_in_app_l, occurs_in_join, in_map.
  apply (Permutation_in _ (set_order_perm l)). now apply nodup_In.
Qed.

(** The message names the branch and the trimmed commit message, and it
    lists every skip prefix, quoted and followed by its colon, as the way
    to skip the check. *)
Lemma unresolved_msg_shape (c : Commit) (name message : str) :
  branch_name c = Some name ->
  exists listing,
    unresolved_msg c message =
      py "Commit type could not be determined from the branch name '"
      ++ name ++ py "' or the commit message '" ++ strip message
      ++ py "'. Start the commit message with one of " ++ listing
      ++ py " to skip this check."
    /\ forall p, In p (_skip_prefixes c) ->
                 occurs_in (py "'" ++ p ++ py ":'") listing.
Proof.
  intros Hb.
  exists (set_str (List.map (fun p => p ++ py ":") (_skip_prefixes c))).
  split.
  - unfold unresolved_msg. rewrite Hb. reflexivity.
  - intros p Hp.
    replace (py "'" ++ p ++ py ":'") with (repr (p ++ py ":")).
    + apply set_str_lists.
      apply (in_map (fun p0 => p0 ++ py ":")) in Hp. exact Hp.
    + unfold repr. now rewrite <- app_assoc.
Qed.

(** ** The whole operation *)

Lemma read_spec (c : Commit) (w : World) :
  _read_commit_message (mkState c w) =
  Returned tt (mkState (set_commit_message (Some (message_file w)) c) w).
Proof. reflexivity. Qed.

(** [format_message] once the message has been read. *)
Lemma format_message_after_read (c : Commit) (w : World) :
  format_message (mkState c w) =
  match _extract_type_from_commit_message
          (mkState (set_commit_message (Some (message_file w)) c) w) with
  | Returned _ st1 =>
      match _format_commit_message st1 with
      | Returned _ st2 => _write_commit_message st2
      | Raised e st2 => Raised e st2
      end
  | Raised e st1 => Raised e st1
  end.
Proof. reflexivity. Qed.

(** C6: when the branch gave no default type and the message does not
    begin with letters followed by a colon, the operation raises the
    [ValueError] of an undetermined type; its text names the branch and
    the trimmed message and lists every skip prefix with its colon as the
    way to skip the check. The message file is left as it was. *)
Theorem unresolved_type_reported
  (fp : str) (branch : option str) (w : World) (st0 : State) :
  __init__ fp branch w = Returned tt st0 ->
  default_commit_type (self st0) = None ->
  re_search_type (py ":") (message_file w) = None ->
  exists st listing,
    run fp branch w = Raised (UnresolvedCommitType (self st) (message_file w)) st
    /\ unresolved_msg (self st) (message_file w) =
         py "Commit type could not be determined from the branch name '"
         ++ branch_of branch w ++ py "' or the commit message '"
         ++ strip (message_file w)
         ++ py "'. Start the commit message with one of " ++ listing
         ++ py " to skip this check."
    /\ (forall p, In p DEFAULT_SKIP_PREFIXES ->
                  occurs_in (py "'" ++ p ++ py ":'") listing)
    /\ message_file (world st) = message_file w.
Proof.
  intros Hinit Hdef Hre.
  pose proof (init_without_default fp branch w st0 Hinit Hdef) as ->.
  unfold run. rewrite Hinit, format_message_after_read.
  erewrite extract_without_token; [| reflexivity | exact Hre].
  cbn [default_commit_type set_commit_message set_branch_name fresh_commit].
  destruct (unresolved_msg_shape
              (set_commit_message (Some (message_file w))
                 (set_branch_name (Some (branch_of branch w))
                    (fresh_commit fp branch)))
              (branch_of branch w) (message_file w) eq_refl)
    as [listing [Htext Hlist]].
  exists (mkState (set_commit_message (Some (message_file w))
                     (set_branch_name (Some (branch_of branch w))
                        (fresh_commit fp branch))) w), listing.
  split; [reflexivity|].
  split; [exact Htext|]. split; [exact Hlist | reflexivity].
Qed.

(** C8: when the branch gave no default type, hence no issue number, and
    the message begins with a commit type, the operation raises the
    [ValueError] of a missing type or issue number; no updated message has
    been composed, and the message file is left as it was. *)
Theorem type_without_issue_fails
  (fp : str) (branch : option str) (w : World) (st0 : State) (token : str) :
  __init__ fp branch w = Returned tt st0 ->
  default_commit_type (self st0) = None ->
  re_search_type (py ":") (message_file w) = Some token ->
  contains DEFAULT_COMMIT_TYPES (lower token) = true ->
  exists st,
    run fp branch w = Raised IncompleteResolution st
    /\ commit_type (self st) = Some token
    /\ issue_no (self st) = None
    /\ updated_commit_message (self st) = None
    /\ message_file (world st) = message_file w.
Proof.
  intros Hinit Hdef Hre Htype.
  pose proof (init_without_default fp branch w st0 Hinit Hdef) as ->.
  unfold run. rewrite Hinit, format_message_after_read.
  erewrite extract_with_token; [| reflexivity | exact Hre].
  cbn [_skip_prefixes _commit_types set_commit_message set_branch_name
       fresh_commit].
  assert (Hvoc : contains (DEFAULT_SKIP_PREFIXES ++ DEFAULT_COMMIT_TYPES)
                          (lower token) = true).
  { apply contains_In, in_or_app. right. now apply contains_In. }
  rewrite Hvoc.
  unfold _format_commit_message, bind, get_self, update_self, raise.
  cbn [self world commit_type issue_no _skip_prefixes set_commit_message
       set_commit_type set_branch_name fresh_commit].
  rewrite (type_token_not_skip token Htype).
  eexists. repeat split.
Qed.

(** C10: when the branch gave a default type [T] and an issue number [I]
    and the message, empty or not, does not begin with letters followed by
    a colon, the operation returns and the message file holds [I] in upper
    case, [T] between parentheses, a colon, a space and the message as it
    was read, untrimmed. *)
Theorem default_type_prefixes_raw_message
  (fp : str) (branch : option str) (w : World) (st0 : State) (T I : str) :
  __init__ fp branch w = Returned tt st0 ->
  default_commit_type (self st0) = Some T ->
  issue_no (self st0) = Some I ->
  re_search_type (py ":") (message_file w) = None ->
  exists st,
    run fp branch w = Returned tt st
    /\ message_file (world st)
       = upper I ++ py "(" ++ T ++ py "): " ++ message_file w
    /\ updated_commit_message (self st) = Some (message_file (world st)).
Proof.
  intros Hinit Hdef Hissue Hre.
  destruct (init_with_default fp branch w st0 T Hinit Hdef) as [HT [i ->]].
  cbn [self issue_no set_issue_no] in Hissue. injection Hissue as ->.
  destruct (commit_type_plain T HT) as [Hlow Hskip].
  unfold run. rewrite Hinit, format_message_after_read.
  erewrite extract_without_token; [| reflexivity | exact Hre].
  cbn [default_commit_type set_commit_message set_issue_no
       set_default_commit_type].
  unfold _format_commit_message, _write_commit_message, bind, get_self,
    update_self, update_world, print, raise.
  cbn [self world commit_type issue_no _skip_prefixes commit_message
       updated_commit_message set_commit_message set_commit_type
       set_issue_no set_default_commit_type set_branch_name fresh_commit
       set_updated_commit_message fmt message_file].
  rewrite Hskip, Hlow.
  eexists. repeat split.
Qed.

(** ** Skip prefixes *)

(** C1, on the code: the extraction accepts [Skip] and [SKIP] as it
    accepts [skip], but the formatting step compares the kept token with
    the skip prefixes exactly. Whatever follows the colon, on a branch
    without issue number the operation raises, and on a branch with one
    the message comes out with [skip] as its commit type. Only the
    lower-case prefix passes the message through. *)
Theorem capitalised_skip_not_skipped (rest : str) :
  raised (run (py "msg") (Some (py "develop"))
              (world_of [] (py "Skip:" ++ rest)))
  = Some IncompleteResolution
  /\ raised (run (py "msg") (Some (py "develop"))
                 (world_of [] (py "SKIP:" ++ rest)))
     = Some IncompleteResolution
  /\ written (run (py "msg") (Some (py "feat/ABC-123/my_feat"))
                  (world_of [] (py "Skip:" ++ rest)))
     = Some (py "ABC-123(skip): " ++ strip rest)
  /\ written (run (py "msg") (Some (py "develop"))
                  (world_of [] (py "skip:" ++ rest)))
     = Some (strip rest).
Proof. repeat split; reflexivity. Qed.

(** C3, on the code: the type pattern only takes letters, so it never
    matches a message that begins with [no-verify:]; on a branch without
    default type the operation raises the error of an undetermined type,
    whose own text offers ['no-verify:'] as a way to skip the check, and
    on a branch with a default type the prefix stays in the message. *)
Theorem no_verify_prefix_not_recognised (rest : str) :
  re_search_type (py ":") (py "no-verify:" ++ rest) = None
  /\ (exists st,
        run (py "msg") (Some (py "develop"))
            (world_of [] (py "no-verify:" ++ rest))
        = Raised (UnresolvedCommitType (self st) (py "no-verify:" ++ rest)) st
        /\ occurs_in (py "'no-verify:'")
                     (unresolved_msg (self st) (py "no-verify:" ++ rest)))
  /\ written (run (py "msg") (Some (py "feat/ABC-123/my_feat"))
                  (world_of [] (py "no-verify: my message")))
     = Some (py "ABC-123(feat): no-verify: my message").
Proof.
  split; [reflexivity|]. split; [|reflexivity].
  set (message := py "no-verify:" ++ rest).
  set (c := set_commit_message (Some message)
              (set_branch_name (Some (py "develop"))
                 (fresh_commit (py "msg") (Some (py "develop"))))).
  exists (mkState c (world_of [] message)). split; [reflexivity|].
  cbn [self].
  destruct (unresolved_msg_shape c (py "develop") message eq_refl)
    as [listing [-> Hlist]].
  do 5 apply occurs_in_app_r. apply occurs_in_app_l.
  apply (Hlist (py "no-verify")). cbn. tauto.
Qed.

(** ** The two extraction steps *)

(** C9: the two extraction steps disagree. On a message with white space
    at its end both return but keep different messages, and on a token
    followed by a colon without space the newer one returns where the
    older one raises. *)
Theorem extraction_variants_differ :
  (exists message kept kept',
     kept <> kept'
     /\ forall w,
         _extract_type_from_commit_message
           (mkState (set_commit_message (Some message) (fresh_commit [] None)) w)
         = Returned tt
             (mkState (set_commit_message (Some kept)
                         (set_commit_type (Some (py "feat"))
                            (set_commit_message (Some message)
                               (fresh_commit [] None)))) w)
         /\ PreCommitHooks._extract_type_from_commit_message
              (PreCommitHooks.mkCommit [] None None (Some message) None)
            = Returned tt
                (PreCommitHooks.mkCommit [] None None (Some kept')
                                         (Some (py "feat"))))
  /\ (exists message kept,
        forall w,
          _extract_type_from_commit_message
            (mkState (set_commit_message (Some message) (fresh_commit [] None)) w)
          = Returned tt
              (mkState (set_commit_message (Some kept)
                          (set_commit_type (Some (py "feat"))
                             (set_commit_message (Some message)
                                (fresh_commit [] None)))) w)
          /\ PreCommitHooks._extract_type_from_commit_message
               (PreCommitHooks.mkCommit [] None None (Some message) None)
             = Raised (ValueError PreCommitHooks.unresolved_msg)
                 (PreCommitHooks.mkCommit [] None None (Some message) None)).
Proof.
  split.
  - exists (py "feat: my message "), (py "my message"), (py "my message ").
    split; [discriminate|]. intros w. split; reflexivity.
  - exists (py "feat:my message"), (py "my message").
    intros w. split; reflexivity.
Qed.

End HooksFacts.

(** ** Instances on concrete branches and messages *)

Lemma no_slash_in_feat : ~ In 47 (py "feat").
Proof. cbn. intuition discriminate. Defined.

Lemma no_slash_in_my_feat : ~ In 47 (py "my_feat").
Proof. cbn. intuition discriminate. Defined.

(** Branch [feat], alone. *)
Lemma bare_type_branch_index_error_witness :
  (exists st,
     __init__ (py "msg") (Some (py "feat")) (world_of (py "feat") [])
     = Raised IndexError st
     /\ default_commit_type (self st) = None
     /\ issue_no (self st) = None)
  /\ (active_branch (world_of (py "feat") []) = py "feat" ->
      fst (main [py "msg"] (world_of (py "feat") [])) = Uncaught IndexError).
Proof.
  apply (bare_type_branch_index_error (py "msg") (world_of (py "feat") [])
           (py "feat")).
  - exact no_slash_in_feat.
  - reflexivity.
Defined.

(** Message [feat: my message] with a line feed at its end. *)
Lemma extract_strips_both_ends_witness :
  exists before body after,
    py "feat: my message" ++ [10]
    = py "feat" ++ py ":" ++ before ++ body ++ after
    /\ forallb isspace before = true /\ forallb isspace after = true
    /\ trimmed body
    /\ _extract_type_from_commit_message
         (mkState (set_commit_message (Some (py "feat: my message" ++ [10]))
                     (fresh_commit (py "msg") None)) (world_of [] []))
       = Returned tt
           (mkState (set_commit_message (Some body)
                       (set_commit_type (Some (py "feat"))
                          (set_commit_message
                             (Some (py "feat: my message" ++ [10]))
                             (fresh_commit (py "msg") None))))
                    (world_of [] [])).
Proof.
  apply (extract_strips_both_ends
           (set_commit_message (Some (py "feat: my message" ++ [10]))
              (fresh_commit (py "msg") None))
           (world_of [] []) (py "feat: my message" ++ [10]) (py "feat"));
    reflexivity.
Defined.

(** The same message: the code keeps [my message], the wording of the
    specification keeps the line feed after it. *)
Lemma trailing_line_feed_not_kept :
  re_search_type (py ":") (py "feat: my message" ++ [10]) = Some (py "feat")
  /\ contains (DEFAULT_SKIP_PREFIXES ++ DEFAULT_COMMIT_TYPES)
              (lower (py "feat")) = true
  /\ spec_stripped (py "feat") (py "feat: my message" ++ [10])
     = py "my message" ++ [10]
  /\ raised (_extract_type_from_commit_message
               (mkState (set_commit_message
                           (Some (py "feat: my message" ++ [10]))
                           (fresh_commit (py "msg") None)) (world_of [] [])))
     = None
  /\ commit_message
       (self (final (_extract_type_from_commit_message
                (mkState (set_commit_message
                            (Some (py "feat: my message" ++ [10]))
                            (fresh_commit (py "msg") None)) (world_of [] [])))))
     = Some (py "my message")
  /\ py "my message"
     <> spec_stripped (py "feat") (py "feat: my message" ++ [10]).
Proof.
  do 5 (split; [reflexivity|]). discriminate.
Qed.

(** Type [FIX] from a message and issue [abc-1] from a branch. *)
Lemma format_composes_witness :
  exists st,
    _format_commit_message
      (mkState (mkCommit (py "msg") (Some (py "feat")) (Some (py "abc-1"))
                  (Some (py "my message")) (Some (py "FIX")) None
                  DEFAULT_COMMIT_TYPES DEFAULT_SKIP_PREFIXES
                  (Some (py "feat/abc-1/x")) false) (world_of [] []))
    = Returned tt st
    /\ updated_commit_message (self st)
       = Some (upper (py "abc-1") ++ py "(" ++ lower (py "FIX") ++ py "): "
               ++ py "my message").
Proof.
  apply (format_composes
           (mkCommit (py "msg") (Some (py "feat")) (Some (py "abc-1"))
              (Some (py "my message")) (Some (py "FIX")) None
              DEFAULT_COMMIT_TYPES DEFAULT_SKIP_PREFIXES
              (Some (py "feat/abc-1/x")) false)
           (world_of [] []) (py "FIX") (py "abc-1") (py "my message"));
    reflexivity.
Defined.

(** Branch [develop], message [my message]. *)
Lemma unresolved_type_reported_witness :
  exists st listing,
    run (py "msg") (Some (py "develop")) (world_of [] (py "my message"))
    = Raised (UnresolvedCommitType (self st) (py "my message")) st
    /\ unresolved_msg (self st) (py "my message") =
         py "Commit type could not be determined from the branch name '"
         ++ py "develop" ++ py "' or the commit message '"
         ++ strip (py "my message")
         ++ py "'. Start the commit message with one of " ++ listing
         ++ py " to skip this check."
    /\ (forall p, In p DEFAULT_SKIP_PREFIXES ->
                  occurs_in (py "'" ++ p ++ py ":'") listing)
    /\ message_file (world st) = py "my message".
Proof.
  apply (unresolved_type_reported (py "msg") (Some (py "develop"))
           (world_of [] (py "my message"))
           (mkState (set_branch_name (Some (py "develop"))
                       (fresh_commit (py "msg") (Some (py "develop"))))
                    (world_of [] (py "my message"))));
    reflexivity.
Defined.

(** Branch [feat/my_feat]. *)
Lemma branch_without_issue_rejected_witness :
  exists st,
    __init__ (py "msg") (Some (py "feat" ++ 47 :: py "my_feat" ++ []))
             (world_of [] [])
    = Raised InvalidBranchFormat st
    /\ default_commit_type (self st) = None
    /\ issue_no (self st) = None.
Proof.
  apply (branch_without_issue_rejected (py "msg") (world_of [] [])
           (py "feat") (py "my_feat") []).
  - exact no_slash_in_feat.
  - exact no_slash_in_my_feat.
  - left. reflexivity.
  - reflexivity.
  - reflexivity.
  - reflexivity.
Defined.

(** Branch [feat/ABC-123/my_feat] with a line feed after the issue
    number: the second segment is not letters-hyphen-digits, and the
    code accepts it and keeps [ABC-123]. *)
Lemma issue_before_line_feed_accepted :
  contains DEFAULT_COMMIT_TYPES (lower (py "feat")) = true
  /\ issue_shaped (py "ABC-123" ++ [10]) = false
  /\ split 47 (py "feat/ABC-123" ++ [10] ++ py "/my_feat")
     = [py "feat"; py "ABC-123" ++ [10]; py "my_feat"]
  /\ raised (__init__ (py "msg")
                      (Some (py "feat/ABC-123" ++ [10] ++ py "/my_feat"))
                      (world_of [] []))
     = None
  /\ default_commit_type
       (self (final (__init__ (py "msg")
                       (Some (py "feat/ABC-123" ++ [10] ++ py "/my_feat"))
                       (world_of [] []))))
     = Some (py "feat")
  /\ issue_no
       (self (final (__init__ (py "msg")
                       (Some (py "feat/ABC-123" ++ [10] ++ py "/my_feat"))
                       (world_of [] []))))
     = Some (py "ABC-123").
Proof.
  do 5 (split; [reflexivity|]). reflexivity.
Qed.

(** Branch [develop], message [feat: my message]. *)
Lemma type_without_issue_fails_witness :
  exists st,
    run (py "msg") (Some (py "develop")) (world_of [] (py "feat: my message"))
    = Raised IncompleteResolution st
    /\ commit_type (self st) = Some (py "feat")
    /\ issue_no (self st) = None
    /\ updated_commit_message (self st) = None
    /\ message_file (world st) = py "feat: my message".
Proof.
  apply (type_without_issue_fails (py "msg") (Some (py "develop"))
           (world_of [] (py "feat: my message"))
           (mkState (set_branch_name (Some (py "develop"))
                       (fresh_commit (py "msg") (Some (py "develop"))))
                    (world_of [] (py "feat: my message")))
           (py "feat"));
    reflexivity.
Defined.

(** Branch [feat/abc-123/my_feat], empty message. *)
Lemma default_type_prefixes_raw_message_witness :
  exists st,
    run (py "msg") (Some (py "feat/abc-123/my_feat")) (world_of [] [])
    = Returned tt st
    /\ message_file (world st)
       = upper (py "abc-123") ++ py "(" ++ py "feat" ++ py "): " ++ []
    /\ updated_commit_message (self st) = Some (message_file (world st)).
Proof.
  apply (default_type_prefixes_raw_message (py "msg")
           (Some (py "feat/abc-123/my_feat")) (world_of [] [])
           (mkState (set_issue_no (Some (py "abc-123"))
                       (set_default_commit_type (Some (py "feat"))
                          (set_branch_name (Some (py "feat/abc-123/my_feat"))
                             (fresh_commit (py "msg")
                                (Some (py "feat/abc-123/my_feat"))))))
                    (world_of [] []))
           (py "feat") (py "abc-123"));
    reflexivity.
Defined.

(** * Further properties of [hooks/format_commit_msg.py] *)

Section MoreHooksFacts.
Context {rt : PyRuntime}.

(** ** Construction *)

Lemma split_first (first tail : str) :
  ~ In 47 first ->
  tail = [] \/ (exists r, tail = 47 :: r) ->
  exists more, split 47 (first ++ tail) = first :: more.
Proof.
  intros Hf [-> | [r ->]].
  - rewrite app_nil_r, split_no_sep by assumption. now exists [].
  - rewrite split_segment by assumption. now eexists.
Qed.

Lemma letters_and_digits_no_slash (l d : str) :
  forallb is_letter l = true -> forallb is_digit d = true ->
  ~ In 47 (l ++ 45 :: d).
Proof.
  intros Hl Hd Hin. apply in_app_or in Hin as [Hin | [Hin | Hin]].
  - rewrite forallb_forall in Hl. now specialize (Hl 47 Hin).
  - discriminate.
  - rewrite forallb_forall in Hd. now specialize (Hd 47 Hin).
Qed.

Lemma issue_shaped_no_slash (x : str) : issue_shaped x = true -> ~ In 47 x.
Proof.
  intros H. apply issue_shaped_spec in H as [l [d [_ [_ [Hl [Hd ->]]]]]].
  now apply letters_and_digits_no_slash.
Qed.

(** A branch whose first segment is no commit type is accepted as it is:
    construction returns, only the branch name has been assigned, and the
    world is untouched. *)
Theorem unrecognised_branch_has_no_defaults
  (fp : str) (branch : option str) (w : World) (first tail : str) :
  branch_of branch w = first ++ tail ->
  ~ In 47 first ->
  tail = [] \/ (exists r, tail = 47 :: r) ->
  contains DEFAULT_COMMIT_TYPES (lower first) = false ->
  __init__ fp branch w =
  Returned tt (mkState (mkCommit fp None None None None None
                          DEFAULT_COMMIT_TYPES DEFAULT_SKIP_PREFIXES
                          (Some (first ++ tail)) false) w).
Proof.
  intros Hname Hfirst Htail Htype. rewrite init_spec, Hname.
  destruct (split_first first tail Hfirst Htail) as [more ->].
  now rewrite Htype.
Qed.

(** A branch [T/X/...] whose first segment is a commit type in any case
    and whose second segment is letters-hyphen-digits is accepted: the
    default type is [T] in lower case and the issue number is [X] as it
    is written in the branch. *)
Theorem typed_branch_yields_type_and_issue
  (fp : str) (w : World) (T X tail : str) :
  ~ In 47 T ->
  tail = [] \/ (exists r, tail = 47 :: r) ->
  contains DEFAULT_COMMIT_TYPES (lower T) = true ->
  issue_shaped X = true ->
  __init__ fp (Some (T ++ 47 :: X ++ tail)) w =
  Returned tt (mkState (mkCommit fp (Some (lower T)) (Some X) None None None
                          DEFAULT_COMMIT_TYPES DEFAULT_SKIP_PREFIXES
                          (Some (T ++ 47 :: X ++ tail)) false) w).
Proof.
  intros HT Htail Htype HX. rewrite init_spec, branch_of_given.
  destruct (split_type_issue T X tail HT (issue_shaped_no_slash X HX) Htail)
    as [more ->].
  rewrite Htype.
  assert (Hre : re_search_issue X = Some X)
    by (apply re_search_issue_Some; auto).
  now rewrite Hre.
Qed.

(** Passing no branch, or an empty one, is the same as passing the branch
    git reports. *)
Theorem branch_defaults_to_checked_out (fp : str) (w : World) :
  __init__ fp None w = __init__ fp (Some (active_branch w)) w
  /\ __init__ fp (Some []) w = __init__ fp (Some (active_branch w)) w.
Proof.
  assert (Hb : branch_of (Some (active_branch w)) w = active_branch w)
    by (destruct (active_branch w) eqn:E; cbn; now rewrite ?E).
  split; rewrite !init_spec, Hb; reflexivity.
Qed.

(** What a successful construction leaves: the vocabulary, an untouched
    world, no message yet, and a default type exactly when there is an
    issue number, which is then letters-hyphen-digits. *)
Lemma init_returned (fp : str) (branch : option str) (w : World) (st0 : State) :
  __init__ fp branch w = Returned tt st0 ->
  exists c,
    st0 = mkState c w
    /\ _skip_prefixes c = DEFAULT_SKIP_PREFIXES
    /\ _commit_types c = DEFAULT_COMMIT_TYPES
    /\ branch_name c = Some (branch_of branch w)
    /\ ((default_commit_type c = None /\ issue_no c = None)
        \/ (exists T I, default_commit_type c = Some T /\ issue_no c = Some I
                        /\ In T DEFAULT_COMMIT_TYPES
                        /\ issue_shaped I = true)).
Proof.
  rewrite init_spec.
  destruct (split 47 (branch_of branch w)) as [|first rest]; [discriminate|].
  destruct (contains DEFAULT_COMMIT_TYPES (lower first)) eqn:E.
  - destruct rest as [|second rest]; [discriminate|].
    destruct (re_search_issue second) as [i|] eqn:Ei; [|discriminate].
    intros H. injection H as <-. eexists. split; [reflexivity|].
    repeat split. right. exists (lower first), i. repeat split.
    + now apply contains_In.
    + now apply re_search_issue_Some in Ei as [Hi _].
  - intros H. injection H as <-. eexists. split; [reflexivity|].
    repeat split. now left.
Qed.

(** ** Formatting and writing *)

(** The last two steps of [format_message] on an object that has its
    commit type and its message. *)
Lemma format_then_write (c : Commit) (w : World) (t m : str) :
  commit_type c = Some t ->
  commit_message c = Some m ->
  (_format_commit_message ;; _write_commit_message) (mkState c w) =
  if contains (_skip_prefixes c) t then
    Returned tt (mkState (set_updated_commit_message (Some m) c)
                         (mkWorld m (active_branch w) (stdout w)))
  else
    match issue_no c with
    | None => Raised IncompleteResolution (mkState c w)
    | Some i =>
        Returned tt
          (mkState (set_updated_commit_message
                      (Some (upper i ++ py "(" ++ lower t ++ py "): " ++ m)) c)
                   (mkWorld (upper i ++ py "(" ++ lower t ++ py "): " ++ m)
                            (active_branch w)
                            (stdout w ++
                               [py "Extracted commit_type: '" ++ t
                                ++ py "' and " ++ py "issue_no: '" ++ i
                                ++ py "'."])))
    end.
Proof.
  intros Ht Hm.
  unfold _format_commit_message, _write_commit_message, bind, get_self,
    update_self, update_world, print, raise.
  cbn [self world]. rewrite Ht, Hm.
  destruct (contains (_skip_prefixes c) t); [reflexivity|].
  destruct (issue_no c); reflexivity.
Qed.

(** [format_message] in one piece. *)
Lemma format_message_cases (c : Commit) (w : World) :
  format_message (mkState c w) =
  match re_search_type (py ":") (message_file w) with
  | None =>
      match default_commit_type c with
      | None =>
          Raised (UnresolvedCommitType
                    (set_commit_message (Some (message_file w)) c)
                    (message_file w))
                 (mkState (set_commit_message (Some (message_file w)) c) w)
      | Some d =>
          (_format_commit_message ;; _write_commit_message)
            (mkState (set_commit_type (Some d)
                        (set_commit_message (Some (message_file w)) c)) w)
      end
  | Some token =>
      if contains (_skip_prefixes c ++ _commit_types c) (lower token) then
        (_format_commit_message ;; _write_commit_message)
          (mkState (set_commit_message
                      (Some (strip (skipn (List.length token + 1)%nat
                                          (message_file w))))
                      (set_commit_type (Some token)
                         (set_commit_message (Some (message_file w)) c))) w)
      else
        Raised (DisallowedCommitType token)
               (mkState (set_commit_message (Some (message_file w)) c) w)
  end.
Proof.
  rewrite format_message_after_read.
  destruct (re_search_type (py ":") (message_file w)) as [token|] eqn:Hre.
  - erewrite extract_with_token; [| reflexivity | exact Hre].
    cbn [_skip_prefixes _commit_types set_commit_message].
    destruct (contains (_skip_prefixes c ++ _commit_types c) (lower token));
      reflexivity.
  - erewrite extract_without_token; [| reflexivity | exact Hre].
    cbn [default_commit_type set_commit_message].
    destruct (default_commit_type c); reflexivity.
Qed.

(** Whatever [format_message] raises, it raises before it prints or
    writes, and it is a [ValueError]. *)
Lemma format_message_raised (c : Commit) (w : World) (e : exn) (st : State) :
  format_message (mkState c w) = Raised e st ->
  world st = w /\ exists text, e = ValueError text.
Proof.
  rewrite format_message_cases.
  destruct (re_search_type (py ":") (message_file w)) as [token|].
  - destruct (contains (_skip_prefixes c ++ _commit_types c) (lower token)).
    + erewrite format_then_write; [| reflexivity | reflexivity].
      cbn [_skip_prefixes issue_no set_commit_message set_commit_type].
      destruct (contains (_skip_prefixes c) token); [discriminate|].
      destruct (issue_no c); [discriminate|].
      intros H. injection H as <- <-. split; [reflexivity | now eexists].
    + intros H. injection H as <- <-. split; [reflexivity | now eexists].
  - destruct (default_commit_type c) as [d|].
    + erewrite format_then_write; [| reflexivity | reflexivity].
      cbn [_skip_prefixes issue_no set_commit_message set_commit_type].
      destruct (contains (_skip_prefixes c) d); [discriminate|].
      destruct (issue_no c); [discriminate|].
      intros H. injection H as <- <-. split; [reflexivity | now eexists].
    + intros H. injection H as <- <-. split; [reflexivity | now eexists].
Qed.

(** What the whole operation can raise, and in which state: a
    [ValueError], or the [IndexError] of a branch that is one segment
    naming a commit type; in both cases the world is as it was. *)
Lemma run_raised
  (fp : str) (branch : option str) (w : World) (e : exn) (st : State) :
  run fp branch w = Raised e st ->
  world st = w
  /\ ((exists text, e = ValueError text)
      \/ (e = IndexError
          /\ exists first, split 47 (branch_of branch w) = [first]
                           /\ contains DEFAULT_COMMIT_TYPES (lower first) = true)).
Proof.
  unfold run. destruct (__init__ fp branch w) as [[] st0|e0 st0] eqn:Hinit.
  - destruct (init_returned fp branch w st0 Hinit) as [c [-> _]].
    intros H. apply format_message_raised in H as [Hw Hv]. auto.
  - intros H. injection H as <- <-. revert Hinit. rewrite init_spec.
    destruct (split 47 (branch_of branch w)) as [|first rest] eqn:Hs.
    + exfalso. destruct (branch_of branch w) as [|ch r]; [discriminate|].
      cbn in Hs. destruct (ch =? 47); [discriminate|].
      destruct (split 47 r); discriminate.
    + destruct (contains DEFAULT_COMMIT_TYPES (lower first)) eqn:Ht;
        [|discriminate].
      destruct rest as [|second rest].
      * intros H. injection H as <- <-. split; [reflexivity|].
        right. split; [reflexivity|]. now exists first.
      * destruct (re_search_issue second); [discriminate|].
        intros H. injection H as <- <-. split; [reflexivity|].
        left. now eexists.
Qed.

(** The errors of the operation itself come before its first print and
    before the file is opened for writing: what it raises is a
    [ValueError] or the [IndexError] of a one-segment branch, and then the
    message file and the output are as they were. *)
Theorem failure_leaves_world_untouched
  (fp : str) (branch : option str) (w : World) (e : exn) (st : State) :
  run fp branch w = Raised e st ->
  ((exists text, e = ValueError text) \/ e = IndexError)
  /\ world st = w.
Proof.
  intros H. apply run_raised in H as [Hw [Hv | [Hi _]]]; auto.
Qed.

(** ** Messages that carry a token *)

Lemma token_found (token rest : str) :
  token <> [] -> forallb is_letter token = true ->
  re_search_type (py ":") (token ++ py ":" ++ rest) = Some token.
Proof.
  intros Hne Hall. apply (re_search_type_Some 58 []); [reflexivity|].
  repeat split; try assumption. now exists rest.
Qed.

(** A token outside the vocabulary stops the operation whatever the
    branch provides: the error quotes the token in lower case, and the
    world is as it was. *)
Theorem disallowed_token_rejected
  (fp : str) (branch : option str) (w : World) (st0 : State)
  (token rest : str) :
  __init__ fp branch w = Returned tt st0 ->
  message_file w = token ++ py ":" ++ rest ->
  token <> [] -> forallb is_letter token = true ->
  contains (DEFAULT_SKIP_PREFIXES ++ DEFAULT_COMMIT_TYPES) (lower token) = false ->
  exists st,
    run fp branch w =
      Raised (ValueError (py "Commit type '" ++ lower token
                          ++ py "' is not allowed according to conventional commit."))
             st
    /\ world st = w.
Proof.
  intros Hinit Hmsg Hne Hall Hvoc.
  destruct (init_returned fp branch w st0 Hinit) as [c [-> [Hs [Ht _]]]].
  unfold run. rewrite Hinit, format_message_cases, Hmsg.
  rewrite (token_found token rest Hne Hall), Hs, Ht, Hvoc.
  eexists. split; reflexivity.
Qed.

(** A message that begins with [skip:] or [s:] is passed through on every
    accepted branch: the file ends up holding what follows the colon,
    trimmed, and nothing is printed. *)
Theorem skip_prefix_passes_message_through
  (fp : str) (branch : option str) (w : World) (st0 : State)
  (token rest : str) :
  __init__ fp branch w = Returned tt st0 ->
  token = py "skip" \/ token = py "s" ->
  message_file w = token ++ py ":" ++ rest ->
  exists st,
    run fp branch w = Returned tt st
    /\ world st = mkWorld (strip rest) (active_branch w) (stdout w)
    /\ updated_commit_message (self st) = Some (strip rest).
Proof.
  intros Hinit Htok Hmsg.
  destruct (init_returned fp branch w st0 Hinit) as [c [-> [Hs [Ht _]]]].
  assert (Hfound : re_search_type (py ":") (token ++ py ":" ++ rest) = Some token)
    by (destruct Htok as [-> | ->]; reflexivity).
  assert (Hvoc : contains (DEFAULT_SKIP_PREFIXES ++ DEFAULT_COMMIT_TYPES)
                          (lower token) = true)
    by (destruct Htok as [-> | ->]; reflexivity).
  assert (Hskip : contains DEFAULT_SKIP_PREFIXES token = true)
    by (destruct Htok as [-> | ->]; reflexivity).
  unfold run. rewrite Hinit, format_message_cases, Hmsg, Hfound, Hs, Ht, Hvoc.
  erewrite format_then_write; [| reflexivity | reflexivity].
  cbn [_skip_prefixes set_commit_message set_commit_type]. rewrite Hs, Hskip.
  rewrite skipn_token. eexists. repeat split.
Qed.

(** A commit type at the head of the message wins over the one of the
    branch: with an issue number from the branch, the file ends up holding
    the issue number in upper case, the message's type in lower case and
    what follows the colon, trimmed. *)
Theorem message_type_overrides_branch_default
  (fp : str) (branch : option str) (w : World) (st0 : State)
  (I token rest : str) :
  __init__ fp branch w = Returned tt st0 ->
  issue_no (self st0) = Some I ->
  message_file w = token ++ py ":" ++ rest ->
  token <> [] -> forallb is_letter token = true ->
  contains DEFAULT_COMMIT_TYPES (lower token) = true ->
  exists st,
    run fp branch w = Returned tt st
    /\ message_file (world st)
       = upper I ++ py "(" ++ lower token ++ py "): " ++ strip rest
    /\ updated_commit_message (self st) = Some (message_file (world st)).
Proof.
  intros Hinit Hissue Hmsg Hne Hall Htype.
  destruct (init_returned fp branch w st0 Hinit) as [c [-> [Hs [Ht _]]]].
  cbn [self] in Hissue.
  assert (Hvoc : contains (DEFAULT_SKIP_PREFIXES ++ DEFAULT_COMMIT_TYPES)
                          (lower token) = true).
  { apply contains_In, in_or_app. right. now apply contains_In. }
  unfold run. rewrite Hinit, format_message_cases, Hmsg.
  rewrite (token_found token rest Hne Hall), Hs, Ht, Hvoc.
  erewrite format_then_write; [| reflexivity | reflexivity].
  cbn [_skip_prefixes issue_no set_commit_message set_commit_type].
  rewrite Hs, (type_token_not_skip token Htype), Hissue, skipn_token.
  eexists. repeat split.
Qed.

(** ** The entry point *)

(** [main] in one piece: status 0 with the world the operation left,
    status 1 with the error text printed and nothing else changed, or an
    exception it does not catch. *)
Lemma main_cases (fp : str) (args : list str) (w : World) :
  main (fp :: args) w =
  match run fp None w with
  | Returned _ st => (Exit 0, world st)
  | Raised (ValueError text) _ =>
      (Exit 1, mkWorld (message_file w) (active_branch w) (stdout w ++ [text]))
  | Raised e _ => (Uncaught e, w)
  end.
Proof.
  unfold main. destruct (run fp None w) as [a st|e st] eqn:Hrun; [reflexivity|].
  apply run_raised in Hrun as [Hw _]. destruct st as [c w']. cbn in Hw. subst w'.
  destruct e; reflexivity.
Qed.

(** Status 1 is a [ValueError] of the operation: its text is the one line
    [main] prints, and the message file is as it was. *)
Theorem main_exit_one_reports (args : list str) (w : World) :
  fst (main args w) = Exit 1 ->
  exists fp rest text st,
    args = fp :: rest
    /\ run fp None w = Raised (ValueError text) st
    /\ snd (main args w)
       = mkWorld (message_file w) (active_branch w) (stdout w ++ [text]).
Proof.
  destruct args as [|fp rest]; [discriminate|].
  rewrite main_cases. destruct (run fp None w) as [a st|e st] eqn:Hrun;
    [discriminate|].
  destruct e as [text| |]; try discriminate.
  intros _. now exists fp, rest, text, st.
Qed.

(** ** The written message *)

Lemma letter_upper (c : char) :
  is_letter c = true -> is_ascii c = true /\ is_letter (ascii_upper c) = true.
Proof.
  unfold is_letter, is_ascii, ascii_upper, between.
  destruct (N.leb_spec 65 c), (N.leb_spec c 90), (N.leb_spec 97 c),
    (N.leb_spec c 122); cbn; intros Hc; try discriminate;
    (split; [apply N.ltb_lt; lia|]);
    rewrite ?orb_true_iff, ?andb_true_iff, ?N.leb_le; lia.
Qed.

Lemma digit_upper (c : char) :
  is_digit c = true -> is_ascii c = true /\ ascii_upper c = c.
Proof.
  unfold is_digit, is_ascii, ascii_upper, between.
  destruct (N.leb_spec 48 c), (N.leb_spec c 57), (N.leb_spec 97 c),
    (N.leb_spec c 122); cbn; intros Hc; try discriminate;
    (split; [apply N.ltb_lt; lia|]); try reflexivity; lia.
Qed.

(** Upper-casing an issue number keeps it letters-hyphen-digits. *)
Lemma upper_issue_shaped (I : str) :
  issue_shaped I = true -> issue_shaped (upper I) = true.
Proof.
  intros H. apply issue_shaped_spec in H as [l [d [Hl [Hd [Hal [Had ->]]]]]].
  assert (Hascii : forallb is_ascii (l ++ 45 :: d) = true).
  { rewrite forallb_app. cbn. apply andb_true_iff. split.
    - apply forallb_forall. intros c Hc. rewrite forallb_forall in Hal.
      now apply letter_upper, Hal.
    - apply forallb_forall. intros c Hc. rewrite forallb_forall in Had.
      now apply digit_upper, Had. }
  unfold upper. rewrite Hascii, map_app. cbn [List.map].
  apply issue_shaped_spec.
  exists (List.map ascii_upper l), (List.map ascii_upper d).
  repeat split.
  - destruct l; [congruence | discriminate].
  - destruct d; [congruence | discriminate].
  - apply forallb_forall. intros c Hc. apply in_map_iff in Hc as [c0 [<- Hc0]].
    rewrite forallb_forall in Hal. now apply letter_upper, Hal.
  - apply forallb_forall. intros c Hc. apply in_map_iff in Hc as [c0 [<- Hc0]].
    rewrite forallb_forall in Had.
    destruct (digit_upper c0 (Had c0 Hc0)) as [_ ->]. now apply Had.
Qed.

(** A text that begins with an issue number does not begin with a
    token. *)
Lemma issue_prefix_no_token (I x : str) :
  issue_shaped I = true -> re_search_type (py ":") (I ++ x) = None.
Proof.
  intros H. apply issue_shaped_spec in H as [l [d [Hl [Hd [Hal [Had ->]]]]]].
  unfold re_search_type. rewrite <- app_assoc.
  assert (Hs : stops is_letter ((45 :: d) ++ x)) by reflexivity.
  rewrite (takeWhile_app _ _ _ Hal Hs), (dropWhile_app _ _ _ Hal Hs).
  destruct l; [congruence | reflexivity].
Qed.

(** When the operation returns, the file holds the updated message, and
    the message read decides which. With a token that is an exact skip
    prefix, it is what follows the token's colon, trimmed. With any other
    token, it is the branch's issue number in upper case, the token in
    lower case between parentheses, a colon, a space and what follows the
    token's colon, trimmed. Without token, it is the issue number in upper
    case, the branch's type between parentheses, a colon, a space and the
    message as read. The issue number in upper case is
    letters-hyphen-digits. *)
Theorem success_writes_header_or_skips
  (fp : str) (branch : option str) (w : World) (st : State) :
  run fp branch w = Returned tt st ->
  updated_commit_message (self st) = Some (message_file (world st))
  /\ match re_search_type (py ":") (message_file w) with
     | Some token =>
         exists rest,
           message_file w = token ++ py ":" ++ rest
           /\ ((In token DEFAULT_SKIP_PREFIXES
                /\ message_file (world st) = strip rest)
               \/ (~ In token DEFAULT_SKIP_PREFIXES
                   /\ In (lower token)
                         (DEFAULT_SKIP_PREFIXES ++ DEFAULT_COMMIT_TYPES)
                   /\ exists I,
                        issue_no (self st) = Some I
                        /\ issue_shaped (upper I) = true
                        /\ message_file (world st)
                           = upper I ++ py "(" ++ lower token ++ py "): "
                             ++ strip rest))
     | None =>
         exists T I,
           default_commit_type (self st) = Some T
           /\ issue_no (self st) = Some I
           /\ In T DEFAULT_COMMIT_TYPES
           /\ issue_shaped (upper I) = true
           /\ message_file (world st)
              = upper I ++ py "(" ++ T ++ py "): " ++ message_file w
     end.
Proof.
  unfold run. destruct (__init__ fp branch w) as [[] st0|e0 st0] eqn:Hinit;
    [|discriminate].
  destruct (init_returned fp branch w st0 Hinit)
    as [c [-> [Hs [Ht [_ Hbranch]]]]].
  rewrite format_message_cases, Hs, Ht.
  destruct (re_search_type (py ":") (message_file w)) as [token|] eqn:Hre.
  - apply re_search_type_Some in Hre as [_ [_ [rest Hmsg]]]; [|reflexivity].
    destruct (contains (DEFAULT_SKIP_PREFIXES ++ DEFAULT_COMMIT_TYPES)
                       (lower token)) eqn:Hvoc; [|discriminate].
    erewrite format_then_write; [| reflexivity | reflexivity].
    cbn [_skip_prefixes issue_no set_commit_message set_commit_type].
    rewrite Hs, Hmsg, skipn_token.
    destruct (contains DEFAULT_SKIP_PREFIXES token) eqn:Hskip.
    + intros H. injection H as <-. split; [reflexivity|].
      exists rest. split; [reflexivity|]. left.
      split; [now apply contains_In | reflexivity].
    + destruct Hbranch as [[_ Hi] | [T [I [_ [Hi [_ HI]]]]]]; rewrite Hi;
        [discriminate|].
      intros H. injection H as <-. split; [reflexivity|].
      exists rest. split; [reflexivity|]. right.
      split; [now apply contains_not_In|].
      split; [now apply contains_In|].
      exists I. split; [exact Hi|].
      split; [now apply upper_issue_shaped | reflexivity].
  - destruct Hbranch as [[Hd _] | [T [I [Hd [Hi [HT HI]]]]]]; rewrite Hd;
      [discriminate|].
    erewrite format_then_write; [| reflexivity | reflexivity].
    cbn [_skip_prefixes issue_no set_commit_message set_commit_type].
    destruct (commit_type_plain T HT) as [Hlow Hskip].
    rewrite Hs, Hskip, Hi, Hlow.
    intros H. injection H as <-. split; [reflexivity|].
    exists T, I. split; [exact Hd|]. split; [exact Hi|].
    split; [exact HT|]. split; [now apply upper_issue_shaped | reflexivity].
Qed.

(** The operation is not idempotent. On a branch with a default type and
    an issue number, a message without token gets its header, and a second
    pass over the result puts the same header in front once more. *)
Theorem second_pass_adds_second_header
  (fp : str) (branch : option str) (w : World) (st0 : State) (T I : str) :
  __init__ fp branch w = Returned tt st0 ->
  default_commit_type (self st0) = Some T ->
  issue_no (self st0) = Some I ->
  re_search_type (py ":") (message_file w) = None ->
  exists st1 st2,
    run fp branch w = Returned tt st1
    /\ run fp branch (world st1) = Returned tt st2
    /\ message_file (world st2)
       = (upper I ++ py "(" ++ T ++ py "): ")
         ++ (upper I ++ py "(" ++ T ++ py "): ") ++ message_file w.
Proof.
  intros Hinit Hdef Hissue Hre.
  destruct (init_returned fp branch w st0 Hinit)
    as [c [-> [Hs [Ht [_ Hbranch]]]]].
  cbn [self] in Hdef, Hissue.
  destruct Hbranch as [[Hd _] | [T' [I' [Hd [Hi [HT HI]]]]]]; [congruence|].
  assert (T' = T) by congruence. assert (I' = I) by congruence. subst T' I'.
  destruct (commit_type_plain T HT) as [Hlow Hskip].
  set (text := upper I ++ py "(" ++ T ++ py "): " ++ message_file w).
  set (w1 := mkWorld text (active_branch w)
               (stdout w ++ [py "Extracted commit_type: '" ++ T
                             ++ py "' and " ++ py "issue_no: '" ++ I
                             ++ py "'."])).
  assert (Hpass : forall v, active_branch v = active_branch w ->
            re_search_type (py ":") (message_file v) = None ->
            exists st, run fp branch v = Returned tt st
                       /\ message_file (world st)
                          = upper I ++ py "(" ++ T ++ py "): " ++ message_file v
                       /\ active_branch (world st) = active_branch w).
  { intros v Hv Hnone.
    assert (Hinit' : __init__ fp branch v = Returned tt (mkState c v)).
    { revert Hinit. rewrite !init_spec.
      assert (Hb : branch_of branch v = branch_of branch w)
        by (destruct branch as [[|ch r]|]; cbn; congruence).
      rewrite Hb.
      destruct (split 47 (branch_of branch w)) as [|first rest];
        [discriminate|].
      destruct (contains DEFAULT_COMMIT_TYPES (lower first)).
      - destruct rest as [|second rest]; [discriminate|].
        destruct (re_search_issue second); [|discriminate].
        intros H. injection H as <-. reflexivity.
      - intros H. injection H as <-. reflexivity. }
    unfold run. rewrite Hinit', format_message_cases, Hnone, Hd.
    erewrite format_then_write; [| reflexivity | reflexivity].
    cbn [_skip_prefixes issue_no set_commit_message set_commit_type].
    rewrite Hs, Hskip, Hi, Hlow. eexists. repeat split. exact Hv. }
  destruct (Hpass w eq_refl Hre) as [st1 [Hrun1 [Hfile1 Hbr1]]].
  assert (Hnone1 : re_search_type (py ":") (message_file (world st1)) = None).
  { rewrite Hfile1. apply issue_prefix_no_token. now apply upper_issue_shaped. }
  destruct (Hpass (world st1) Hbr1 Hnone1) as [st2 [Hrun2 [Hfile2 _]]].
  exists st1, st2. split; [assumption|]. split; [assumption|].
  rewrite Hfile2, Hfile1. now rewrite <- !app_assoc.
Qed.

End MoreHooksFacts.

(** * The older class beside the newer one *)

Section OlderClassFacts.
Context {rt : PyRuntime}.

(** ** Trimming a padded text *)

Lemma dropWhile_all (p : char -> bool) (x : str) :
  forallb p x = true -> dropWhile p x = [].
Proof.
  induction x as [|c r IH]; cbn; [reflexivity|].
  intros H. apply andb_true_iff in H as [Hc Hr]. rewrite Hc. now apply IH.
Qed.

Lemma strip_padded (pad x : str) :
  forallb isspace pad = true -> trimmed x -> strip (pad ++ x) = x.
Proof.
  intros Hpad [Hfront Hback]. unfold strip, lstrip, rstrip.
  destruct x as [|c r].
  - rewrite app_nil_r, (dropWhile_all isspace (rev pad)); [reflexivity|].
    apply forallb_forall. intros a Ha. apply in_rev in Ha.
    rewrite forallb_forall in Hpad. now apply Hpad.
  - rewrite rev_app_distr.
    destruct (rev (c :: r)) as [|a t] eqn:Hrev.
    + apply (f_equal (@rev N)) in Hrev. rewrite rev_involutive in Hrev.
      discriminate.
    + cbn [app dropWhile]. cbn in Hback. rewrite Hback.
      change (a :: t ++ rev pad) with ((a :: t) ++ rev pad).
      rewrite <- Hrev, <- rev_app_distr, rev_involutive.
      now apply dropWhile_app.
Qed.

(** ** The two patterns *)

Lemma spaced_token_is_token (x token : str) :
  re_search_type (py ": ") x = Some token ->
  re_search_type (py ":") x = Some token.
Proof.
  unfold re_search_type.
  destruct (takeWhile is_letter x) as [|a r]; [discriminate|].
  destruct (starts_with (py ": ") (dropWhile is_letter x)) eqn:Hs;
    [|discriminate].
  apply starts_with_spec in Hs as [rest Hrest].
  assert (Hs' : starts_with (py ":") (dropWhile is_letter x) = true).
  { apply starts_with_spec. exists (32 :: rest). exact Hrest. }
  now rewrite Hs'.
Qed.

Lemma no_newer_token_no_older_token (x : str) :
  re_search_type (py ":") x = None -> re_search_type (py ": ") x = None.
Proof.
  intros H. destruct (re_search_type (py ": ") x) as [token|] eqn:E;
    [|reflexivity].
  apply spaced_token_is_token in E. congruence.
Qed.

(** Whenever the older pattern finds a token, the newer pattern finds the
    same token; the older one asks for a space more. *)
Theorem older_token_is_newer_token (x token : str) :
  re_search_type (py ": ") x = Some token ->
  re_search_type (py ":") x = Some token.
Proof. exact (spaced_token_is_token x token). Qed.

(** ** The older class in closed form *)

Lemma old_init_spec (fp : str) (w : World) :
  PreCommitHooksClass.__init__ fp w =
  match split 47 (active_branch w) with
  | [] =>
      PreCommitHooksClass.Failed (PreCommitHooksClass.Exn IndexError)
        (PreCommitHooksClass.mkState
           (PreCommitHooks.mkCommit fp None None None None) w)
  | first :: rest =>
      if contains PreCommitHooks.COMMIT_TYPES (lower first) then
        match rest with
        | [] =>
            PreCommitHooksClass.Failed (PreCommitHooksClass.Exn IndexError)
              (PreCommitHooksClass.mkState
                 (PreCommitHooks.mkCommit fp None None None None) w)
        | second :: _ =>
            match re_search_issue second with
            | None =>
                PreCommitHooksClass.Failed
                  (PreCommitHooksClass.Exn (ValueError
                     (py "Branch name contains a type but no jira issue no.")))
                  (PreCommitHooksClass.mkState
                     (PreCommitHooks.mkCommit fp None None None None) w)
            | Some i =>
                PreCommitHooksClass.Done tt
                  (PreCommitHooksClass.mkState
                     (PreCommitHooks.mkCommit fp (Some (lower first)) (Some i)
                                              None None) w)
            end
        end
      else
        PreCommitHooksClass.Done tt
          (PreCommitHooksClass.mkState
             (PreCommitHooks.mkCommit fp None None None None)
             (mkWorld (message_file w) (active_branch w)
                (stdout w ++
                   [py "Commit type and issue_no could not be determined from branch name '"
                    ++ active_branch w ++ py "'."])))
  end.
Proof.
  unfold PreCommitHooksClass.__init__, PreCommitHooksClass._set_branch_info,
    PreCommitHooksClass.bind, PreCommitHooksClass.get_world,
    PreCommitHooksClass.update_self, PreCommitHooksClass.subscript,
    PreCommitHooksClass.ret, PreCommitHooksClass.raise,
    PreCommitHooksClass.print, PreCommitHooksClass.update_world.
  cbn [PreCommitHooksClass.self PreCommitHooksClass.world].
  destruct (split 47 (active_branch w)) as [|first rest]; [reflexivity|].
  cbn [nth_error].
  destruct (contains PreCommitHooks.COMMIT_TYPES (lower first)); cbn [negb];
    [|reflexivity].
  destruct rest as [|second rest]; [reflexivity|]. cbn [nth_error].
  destruct (re_search_issue second); reflexivity.
Qed.

(** The last two steps of the older [format_message]. *)
Lemma old_format_then_write
  (c : PreCommitHooks.Commit) (w : World) (t m : str) :
  PreCommitHooks.commit_type c = Some t ->
  PreCommitHooks.commit_message c = Some m ->
  PreCommitHooksClass.bind PreCommitHooksClass._format_commit_message
    (fun _ => PreCommitHooksClass._write_commit_message)
    (PreCommitHooksClass.mkState c w) =
  if contains PreCommitHooks.SKIP_PREFIXES t then
    PreCommitHooksClass.Done tt
      (PreCommitHooksClass.mkState c
         (mkWorld m (active_branch w) (stdout w)))
  else
    match PreCommitHooks.issue_no c with
    | None =>
        PreCommitHooksClass.Failed PreCommitHooksClass.AttributeError
          (PreCommitHooksClass.mkState c w)
    | Some i =>
        PreCommitHooksClass.Done tt
          (PreCommitHooksClass.mkState
             (PreCommitHooks.set_commit_message
                (Some (upper i ++ py "(" ++ lower t ++ py "): " ++ m)) c)
             (mkWorld (upper i ++ py "(" ++ lower t ++ py "): " ++ m)
                      (active_branch w) (stdout w)))
    end.
Proof.
  intros Ht Hm.
  unfold PreCommitHooksClass._format_commit_message,
    PreCommitHooksClass._write_commit_message, PreCommitHooksClass.bind,
    PreCommitHooksClass.get_self, PreCommitHooksClass.update_self,
    PreCommitHooksClass.update_world, PreCommitHooksClass.ret,
    PreCommitHooksClass.raise.
  cbn [PreCommitHooksClass.self PreCommitHooksClass.world]. rewrite Ht.
  destruct (contains PreCommitHooks.SKIP_PREFIXES t).
  - cbn [PreCommitHooksClass.self PreCommitHooksClass.world]. now rewrite Hm.
  - destruct (PreCommitHooks.issue_no c); [|reflexivity].
    cbn [PreCommitHooksClass.self PreCommitHooksClass.world
         PreCommitHooks.commit_message PreCommitHooks.set_commit_message].
    now rewrite Hm.
Qed.

(** The older extraction step in one piece. *)
Lemma old_extract_cases (c : PreCommitHooks.Commit) (message : str) :
  PreCommitHooks.commit_message c = Some message ->
  PreCommitHooks._extract_type_from_commit_message c =
  match re_search_type (py ": ") message with
  | None =>
      match PreCommitHooks.default_commit_type c with
      | None => Raised (ValueError PreCommitHooks.unresolved_msg) c
      | Some d => Returned tt (PreCommitHooks.set_commit_type (Some d) c)
      end
  | Some token =>
      if contains (PreCommitHooks.SKIP_PREFIXES ++ PreCommitHooks.COMMIT_TYPES)
                  (lower token)
      then
        Returned tt
          (PreCommitHooks.set_commit_message
             (Some (skipn (List.length token + 2)%nat message))
             (PreCommitHooks.set_commit_type (Some token) c))
      else Raised (ValueError (PreCommitHooks.disallowed_msg token)) c
  end.
Proof.
  intros Hm.
  unfold PreCommitHooks._extract_type_from_commit_message, bind,
    PreCommitHooks.get_self, PreCommitHooks.update_self, raise.
  rewrite Hm.
  destruct (re_search_type (py ": ") message) as [token|].
  - destruct (contains (PreCommitHooks.SKIP_PREFIXES ++ PreCommitHooks.COMMIT_TYPES)
                       (lower token)); reflexivity.
  - destruct (PreCommitHooks.default_commit_type c); reflexivity.
Qed.

Lemma old_format_message_after_read (c : PreCommitHooks.Commit) (w : World) :
  PreCommitHooksClass.format_message (PreCommitHooksClass.mkState c w) =
  match PreCommitHooks._extract_type_from_commit_message
          (PreCommitHooks.set_commit_message (Some (message_file w)) c) with
  | Returned _ c2 =>
      PreCommitHooksClass.bind PreCommitHooksClass._format_commit_message
        (fun _ => PreCommitHooksClass._write_commit_message)
        (PreCommitHooksClass.mkState c2
           (mkWorld (message_file w) (active_branch w)
                    (stdout w ++ [py "Formatting message"])))
  | Raised e c2 =>
      PreCommitHooksClass.Failed (PreCommitHooksClass.Exn e)
        (PreCommitHooksClass.mkState c2
           (mkWorld (message_file w) (active_branch w)
                    (stdout w ++ [py "Formatting message"])))
  end.
Proof.
  unfold PreCommitHooksClass.format_message.
  unfold PreCommitHooksClass.bind at 1 2 3.
  unfold PreCommitHooksClass.print, PreCommitHooksClass.update_world,
    PreCommitHooksClass._read_commit_message,
    PreCommitHooksClass._extract_type_from_commit_message,
    PreCommitHooksClass.lift, PreCommitHooksClass.get_world,
    PreCommitHooksClass.update_self, PreCommitHooksClass.bind at 1.
  cbn [PreCommitHooksClass.self PreCommitHooksClass.world message_file].
  destruct (PreCommitHooks._extract_type_from_commit_message
              (PreCommitHooks.set_commit_message (Some (message_file w)) c));
    reflexivity.
Qed.

(** The older [format_message] in one piece. *)
Lemma old_format_message_cases (c : PreCommitHooks.Commit) (w : World) :
  let w1 := mkWorld (message_file w) (active_branch w)
                    (stdout w ++ [py "Formatting message"]) in
  let c1 := PreCommitHooks.set_commit_message (Some (message_file w)) c in
  PreCommitHooksClass.format_message (PreCommitHooksClass.mkState c w) =
  match re_search_type (py ": ") (message_file w) with
  | None =>
      match PreCommitHooks.default_commit_type c with
      | None =>
          PreCommitHooksClass.Failed
            (PreCommitHooksClass.Exn (ValueError PreCommitHooks.unresolved_msg))
            (PreCommitHooksClass.mkState c1 w1)
      | Some d =>
          PreCommitHooksClass.bind PreCommitHooksClass._format_commit_message
            (fun _ => PreCommitHooksClass._write_commit_message)
            (PreCommitHooksClass.mkState
               (PreCommitHooks.set_commit_type (Some d) c1) w1)
      end
  | Some token =>
      if contains (PreCommitHooks.SKIP_PREFIXES ++ PreCommitHooks.COMMIT_TYPES)
                  (lower token)
      then
        PreCommitHooksClass.bind PreCommitHooksClass._format_commit_message
          (fun _ => PreCommitHooksClass._write_commit_message)
          (PreCommitHooksClass.mkState
             (PreCommitHooks.set_commit_message
                (Some (skipn (List.length token + 2)%nat (message_file w)))
                (PreCommitHooks.set_commit_type (Some token) c1)) w1)
      else
        PreCommitHooksClass.Failed
          (PreCommitHooksClass.Exn
             (ValueError (PreCommitHooks.disallowed_msg token)))
          (PreCommitHooksClass.mkState c1 w1)
  end.
Proof.
  intros w1 c1. subst w1 c1. rewrite old_format_message_after_read.
  rewrite (old_extract_cases
             (PreCommitHooks.set_commit_message (Some (message_file w)) c)
             (message_file w) eq_refl).
  cbn [PreCommitHooks.default_commit_type PreCommitHooks.set_commit_message].
  destruct (re_search_type (py ": ") (message_file w)) as [token|].
  - destruct (contains (PreCommitHooks.SKIP_PREFIXES ++ PreCommitHooks.COMMIT_TYPES)
                       (lower token)); reflexivity.
  - destruct (PreCommitHooks.default_commit_type c); reflexivity.
Qed.

(** ** Failures of the older class *)

Lemma old_format_message_failed
  (c : PreCommitHooks.Commit) (w : World)
  (f : PreCommitHooksClass.fault) (st : PreCommitHooksClass.State) :
  PreCommitHooksClass.format_message (PreCommitHooksClass.mkState c w)
  = PreCommitHooksClass.Failed f st ->
  message_file (PreCommitHooksClass.world st) = message_file w
  /\ f <> PreCommitHooksClass.Exn TypeError
  /\ f <> PreCommitHooksClass.Exn IndexError.
Proof.
  rewrite old_format_message_cases. cbv zeta.
  destruct (re_search_type (py ": ") (message_file w)) as [token|].
  - destruct (contains (PreCommitHooks.SKIP_PREFIXES ++ PreCommitHooks.COMMIT_TYPES)
                       (lower token)).
    + erewrite old_format_then_write; [| reflexivity | reflexivity].
      destruct (contains PreCommitHooks.SKIP_PREFIXES token); [discriminate|].
      cbn [PreCommitHooks.issue_no PreCommitHooks.set_commit_message
           PreCommitHooks.set_commit_type].
      destruct (PreCommitHooks.issue_no c); [discriminate|].
      intros H. injection H as <- <-. repeat split; discriminate.
    + intros H. injection H as <- <-. repeat split; discriminate.
  - destruct (PreCommitHooks.default_commit_type c) as [d|].
    + erewrite old_format_then_write; [| reflexivity | reflexivity].
      destruct (contains PreCommitHooks.SKIP_PREFIXES d); [discriminate|].
      cbn [PreCommitHooks.issue_no PreCommitHooks.set_commit_message
           PreCommitHooks.set_commit_type].
      destruct (PreCommitHooks.issue_no c); [discriminate|].
      intros H. injection H as <- <-. repeat split; discriminate.
    + intros H. injection H as <- <-. repeat split; discriminate.
Qed.

(** Whatever stops the older operation, an error or an exception nobody
    catches, the message file is left as it was. *)
Theorem older_failure_keeps_file
  (fp : str) (w : World)
  (f : PreCommitHooksClass.fault) (st : PreCommitHooksClass.State) :
  PreCommitHooksClass.run fp w = PreCommitHooksClass.Failed f st ->
  message_file (PreCommitHooksClass.world st) = message_file w.
Proof.
  unfold PreCommitHooksClass.run. rewrite old_init_spec.
  destruct (split 47 (active_branch w)) as [|first rest].
  - intros H. now injection H as <- <-.
  - destruct (contains PreCommitHooks.COMMIT_TYPES (lower first)).
    + destruct rest as [|second rest]; [intros H; now injection H as <- <-|].
      destruct (re_search_issue second).
      * intros H. now apply old_format_message_failed in H as [Hf _].
      * intros H. now injection H as <- <-.
    + intros H. now apply old_format_message_failed in H as [Hf _].
Qed.

Lemma spaced_token_found (token rest : str) :
  token <> [] -> forallb is_letter token = true ->
  re_search_type (py ": ") (token ++ py ": " ++ rest) = Some token.
Proof.
  intros Hne Hall. apply (re_search_type_Some 58 [32]); [reflexivity|].
  repeat split; try assumption. now exists rest.
Qed.

Lemma skipn_spaced_token (token rest : str) :
  skipn (List.length token + 2)%nat (token ++ py ": " ++ rest) = rest.
Proof.
  induction token as [|a r IH]; [reflexivity | exact IH].
Qed.

(** A commit type in the message on a branch without issue number: the
    newer [main] reports the error and returns status 1, the older [main]
    reaches [None.upper()] and lets the [AttributeError] through. Neither
    touches the message file. *)
Theorem older_type_without_issue_is_uncaught
  (fp : str) (args : list str) (w : World) (first tail token rest : str) :
  active_branch w = first ++ tail ->
  ~ In 47 first ->
  tail = [] \/ (exists r, tail = 47 :: r) ->
  contains DEFAULT_COMMIT_TYPES (lower first) = false ->
  message_file w = token ++ py ": " ++ rest ->
  token <> [] -> forallb is_letter token = true ->
  contains DEFAULT_COMMIT_TYPES (lower token) = true ->
  fst (PreCommitHooksClass.main (fp :: args) w)
  = PreCommitHooksClass.Uncaught PreCommitHooksClass.AttributeError
  /\ message_file (snd (PreCommitHooksClass.main (fp :: args) w))
     = message_file w
  /\ main (fp :: args) w
     = (Exit 1, mkWorld (message_file w) (active_branch w)
                        (stdout w ++ [incomplete_msg])).
Proof.
  intros Hbranch Hfirst Htail Hnotype Hmsg Hne Hall Htype.
  destruct (split_first first tail Hfirst Htail) as [more Hsplit].
  assert (Hvoc : contains (DEFAULT_SKIP_PREFIXES ++ DEFAULT_COMMIT_TYPES)
                          (lower token) = true).
  { apply contains_In, in_or_app. right. now apply contains_In. }
  pose proof (type_token_not_skip token Htype) as Hskip.
  assert (Hold : PreCommitHooksClass.run fp w =
                 PreCommitHooksClass.Failed PreCommitHooksClass.AttributeError
                   (PreCommitHooksClass.mkState
                      (PreCommitHooks.set_commit_message (Some rest)
                         (PreCommitHooks.set_commit_type (Some token)
                            (PreCommitHooks.set_commit_message
                               (Some (message_file w))
                               (PreCommitHooks.mkCommit fp None None None None))))
                      (mkWorld (message_file w) (active_branch w)
                         ((stdout w ++
                             [py "Commit type and issue_no could not be determined from branch name '"
                              ++ active_branch w ++ py "'."])
                          ++ [py "Formatting message"])))).
  { unfold PreCommitHooksClass.run. rewrite old_init_spec, Hbranch, Hsplit.
    change PreCommitHooks.COMMIT_TYPES with DEFAULT_COMMIT_TYPES.
    rewrite Hnotype, old_format_message_cases. cbv zeta.
    cbn [message_file active_branch stdout]. rewrite Hmsg.
    rewrite (spaced_token_found token rest Hne Hall).
    change (PreCommitHooks.SKIP_PREFIXES ++ PreCommitHooks.COMMIT_TYPES)
      with (DEFAULT_SKIP_PREFIXES ++ DEFAULT_COMMIT_TYPES).
    rewrite Hvoc, skipn_spaced_token.
    erewrite old_format_then_write; [| reflexivity | reflexivity].
    change PreCommitHooks.SKIP_PREFIXES with DEFAULT_SKIP_PREFIXES.
    rewrite Hskip. reflexivity. }
  unfold PreCommitHooksClass.main. rewrite Hold.
  split; [reflexivity|]. split; [reflexivity|].
  rewrite main_cases. unfold run. rewrite init_spec. cbn [branch_of].
  rewrite Hbranch, Hsplit, Hnotype, format_message_cases.
  cbn [_skip_prefixes _commit_types default_commit_type set_branch_name
       fresh_commit].
  rewrite Hmsg.
  change (token ++ py ": " ++ rest) with (token ++ py ":" ++ (32 :: rest)).
  rewrite (token_found token (32 :: rest) Hne Hall), Hvoc.
  erewrite format_then_write; [| reflexivity | reflexivity].
  cbn [_skip_prefixes issue_no set_commit_message set_commit_type
       set_branch_name fresh_commit].
  rewrite Hskip. reflexivity.
Qed.

(** ** Where the two classes agree *)

(** On the branch git reports, a successful construction of the newer
    class is a successful construction of the older one, with the same
    default type and issue number and the same message file. *)
Lemma old_init_matches (fp : str) (w : World) (st0 : State) :
  __init__ fp None w = Returned tt st0 ->
  exists w0,
    PreCommitHooksClass.__init__ fp w =
      PreCommitHooksClass.Done tt
        (PreCommitHooksClass.mkState
           (PreCommitHooks.mkCommit fp (default_commit_type (self st0))
                                    (issue_no (self st0)) None None) w0)
    /\ message_file w0 = message_file w.
Proof.
  rewrite init_spec, old_init_spec. cbn [branch_of].
  change PreCommitHooks.COMMIT_TYPES with DEFAULT_COMMIT_TYPES.
  destruct (split 47 (active_branch w)) as [|first rest]; [discriminate|].
  destruct (contains DEFAULT_COMMIT_TYPES (lower first)).
  - destruct rest as [|second rest]; [discriminate|].
    destruct (re_search_issue second); [|discriminate].
    intros H. injection H as <-. eexists. split; reflexivity.
  - intros H. injection H as <-. eexists. split; reflexivity.
Qed.

(** On a message that has no token for the newer pattern, or that is a
    token, a colon, one space and a trimmed text, the two classes write the
    same message: whenever the newer [main] returns status 0, so does the
    older one, and the message file ends up the same. *)
Theorem variants_write_same_message
  (fp : str) (args : list str) (w : World) :
  re_search_type (py ":") (message_file w) = None
  \/ (exists token rest,
        message_file w = token ++ py ": " ++ rest
        /\ token <> [] /\ forallb is_letter token = true /\ trimmed rest) ->
  fst (main (fp :: args) w) = Exit 0 ->
  fst (PreCommitHooksClass.main (fp :: args) w) = PreCommitHooksClass.Exit 0
  /\ message_file (snd (PreCommitHooksClass.main (fp :: args) w))
     = message_file (snd (main (fp :: args) w)).
Proof.
  intros Hshape. rewrite main_cases.
  destruct (run fp None w) as [[] st|e st] eqn:Hrun;
    [|destruct e; discriminate].
  intros _. cbn [snd]. revert Hrun. unfold run.
  destruct (__init__ fp None w) as [[] st0|e0 st0] eqn:Hinit; [|discriminate].
  destruct (old_init_matches fp w st0 Hinit) as [w0 [Hold Hfile0]].
  destruct (init_returned fp None w st0 Hinit)
    as [c [-> [Hs [Ht [_ Hbranch]]]]].
  cbn [self] in Hold.
  unfold PreCommitHooksClass.main, PreCommitHooksClass.run.
  rewrite Hold, old_format_message_cases. cbv zeta. rewrite Hfile0.
  change (PreCommitHooks.SKIP_PREFIXES ++ PreCommitHooks.COMMIT_TYPES)
    with (DEFAULT_SKIP_PREFIXES ++ DEFAULT_COMMIT_TYPES).
  cbn [PreCommitHooks.default_commit_type].
  rewrite format_message_cases, Hs, Ht.
  destruct Hshape as [Hnone | [token [rest [Hmsg [Hne [Hall Htrim]]]]]].
  - rewrite Hnone, (no_newer_token_no_older_token _ Hnone).
    destruct Hbranch as [[Hd Hi] | [T [I [Hd [Hi [HT HI]]]]]]; rewrite Hd;
      [discriminate|].
    destruct (commit_type_plain T HT) as [Hlow Hskip].
    erewrite format_then_write; [| reflexivity | reflexivity].
    erewrite old_format_then_write; [| reflexivity | reflexivity].
    change PreCommitHooks.SKIP_PREFIXES with DEFAULT_SKIP_PREFIXES.
    cbn [_skip_prefixes issue_no set_commit_message set_commit_type
         PreCommitHooks.issue_no PreCommitHooks.set_commit_message
         PreCommitHooks.set_commit_type].
    rewrite Hs, Hskip, Hi.
    intros H. injection H as <-. split; reflexivity.
  - rewrite Hmsg, (spaced_token_found token rest Hne Hall).
    change (token ++ py ": " ++ rest) with (token ++ py ":" ++ (32 :: rest)).
    rewrite (token_found token (32 :: rest) Hne Hall), skipn_token.
    change (token ++ py ":" ++ (32 :: rest)) with (token ++ py ": " ++ rest).
    rewrite skipn_spaced_token.
    change (32 :: rest) with ([32] ++ rest).
    rewrite (strip_padded [32] rest eq_refl Htrim).
    destruct (contains (DEFAULT_SKIP_PREFIXES ++ DEFAULT_COMMIT_TYPES)
                       (lower token)); [|discriminate].
    erewrite format_then_write; [| reflexivity | reflexivity].
    erewrite old_format_then_write; [| reflexivity | reflexivity].
    change PreCommitHooks.SKIP_PREFIXES with DEFAULT_SKIP_PREFIXES.
    cbn [_skip_prefixes issue_no set_commit_message set_commit_type
         PreCommitHooks.issue_no PreCommitHooks.set_commit_message
         PreCommitHooks.set_commit_type].
    rewrite Hs.
    destruct (contains DEFAULT_SKIP_PREFIXES token).
    + intros H. injection H as <-. split; reflexivity.
    + destruct Hbranch as [[_ Hi] | [T [I [_ [Hi _]]]]]; rewrite Hi;
        [discriminate|].
      intros H. injection H as <-. split; reflexivity.
Qed.

(** ** Where they part *)

Lemma unspaced_token_not_found (token rest : str) :
  forallb is_letter token = true ->
  stops (fun c => c =? 32) rest ->
  re_search_type (py ": ") (token ++ py ":" ++ rest) = None.
Proof.
  intros Hall Hrest. unfold re_search_type.
  change (py ": ") with [58; 32]. change (py ":") with [58].
  assert (Hs : stops is_letter ([58] ++ rest)) by reflexivity.
  rewrite (takeWhile_app _ _ _ Hall Hs), (dropWhile_app _ _ _ Hall Hs).
  destruct token; [reflexivity|].
  destruct rest as [|c r]; [reflexivity|].
  cbn [stops] in Hrest. cbn [app starts_with].
  rewrite N.eqb_refl, (N.eqb_sym 32 c), Hrest. reflexivity.
Qed.

(** A commit type followed by a colon and no space, on a branch with a
    type and an issue number: the newer class takes the type from the
    message and drops the token, the older one takes the type of the
    branch and keeps the whole message, token included. Both return
    status 0. *)
Theorem unspaced_token_is_text_for_older
  (fp : str) (args : list str) (w : World) (st0 : State)
  (T I token rest : str) :
  __init__ fp None w = Returned tt st0 ->
  default_commit_type (self st0) = Some T ->
  issue_no (self st0) = Some I ->
  message_file w = token ++ py ":" ++ rest ->
  token <> [] -> forallb is_letter token = true ->
  contains DEFAULT_COMMIT_TYPES (lower token) = true ->
  stops (fun c => c =? 32) rest ->
  (fst (main (fp :: args) w) = Exit 0
   /\ message_file (snd (main (fp :: args) w))
      = upper I ++ py "(" ++ lower token ++ py "): " ++ strip rest)
  /\ (fst (PreCommitHooksClass.main (fp :: args) w) = PreCommitHooksClass.Exit 0
      /\ message_file (snd (PreCommitHooksClass.main (fp :: args) w))
         = upper I ++ py "(" ++ T ++ py "): " ++ token ++ py ":" ++ rest).
Proof.
  intros Hinit Hdef Hissue Hmsg Hne Hall Htype Hrest.
  destruct (old_init_matches fp w st0 Hinit) as [w0 [Hold Hfile0]].
  destruct (init_returned fp None w st0 Hinit)
    as [c [-> [Hs [Ht [_ Hbranch]]]]].
  cbn [self] in Hold, Hdef, Hissue.
  assert (HT : In T DEFAULT_COMMIT_TYPES).
  { destruct Hbranch as [[Hd _] | [T' [I' [Hd [_ [HT _]]]]]]; congruence. }
  destruct (commit_type_plain T HT) as [Hlow HTskip].
  assert (Hvoc : contains (DEFAULT_SKIP_PREFIXES ++ DEFAULT_COMMIT_TYPES)
                          (lower token) = true).
  { apply contains_In, in_or_app. right. now apply contains_In. }
  split.
  - rewrite main_cases. unfold run.
    rewrite Hinit, format_message_cases, Hs, Ht, Hmsg.
    rewrite (token_found token rest Hne Hall), Hvoc.
    erewrite format_then_write; [| reflexivity | reflexivity].
    cbn [_skip_prefixes issue_no set_commit_message set_commit_type].
    rewrite Hs, (type_token_not_skip token Htype), Hissue, skipn_token.
    split; reflexivity.
  - unfold PreCommitHooksClass.main, PreCommitHooksClass.run.
    rewrite Hold, old_format_message_cases. cbv zeta.
    rewrite Hfile0, Hmsg, (unspaced_token_not_found token rest Hall Hrest).
    cbn [PreCommitHooks.default_commit_type]. rewrite Hdef.
    erewrite old_format_then_write; [| reflexivity | reflexivity].
    change PreCommitHooks.SKIP_PREFIXES with DEFAULT_SKIP_PREFIXES.
    cbn [PreCommitHooks.issue_no PreCommitHooks.set_commit_message
         PreCommitHooks.set_commit_type].
    rewrite HTskip, Hissue, Hlow.
    split; reflexivity.
Qed.

End OlderClassFacts.

(** * When the newer operation returns *)

Section ReturnFacts.
Context {rt : PyRuntime}.

(** The operation returns exactly when construction does and either the
    message has no token and the branch gave a default type, or the
    message's token is in the vocabulary and is an exact skip prefix or
    the branch gave an issue number. *)
Theorem run_returns_iff (fp : str) (branch : option str) (w : World) :
  (exists st, run fp branch w = Returned tt st) <->
  (exists st0,
     __init__ fp branch w = Returned tt st0
     /\ match re_search_type (py ":") (message_file w) with
        | None => default_commit_type (self st0) <> None
        | Some token =>
            contains (DEFAULT_SKIP_PREFIXES ++ DEFAULT_COMMIT_TYPES)
                     (lower token) = true
            /\ (contains DEFAULT_SKIP_PREFIXES token = true
                \/ issue_no (self st0) <> None)
        end).
Proof.
  unfold run.
  destruct (__init__ fp branch w) as [[] st0|e0 st0] eqn:Hinit.
  2:{ split; [intros [st H]; discriminate | intros [st1 [H _]]; discriminate]. }
  destruct (init_returned fp branch w st0 Hinit)
    as [c [-> [Hs [Ht [_ Hbranch]]]]].
  rewrite format_message_cases, Hs, Ht. cbn [self].
  destruct (re_search_type (py ":") (message_file w)) as [token|].
  - destruct (contains (DEFAULT_SKIP_PREFIXES ++ DEFAULT_COMMIT_TYPES)
                       (lower token)).
    + erewrite format_then_write; [| reflexivity | reflexivity].
      cbn [_skip_prefixes issue_no set_commit_message set_commit_type].
      rewrite Hs.
      destruct (contains DEFAULT_SKIP_PREFIXES token).
      * split; [intros _ | intros _; now eexists].
        eexists. split; [reflexivity | auto].
      * destruct (issue_no c) as [i|] eqn:Hi.
        -- split; [intros _ | intros _; now eexists].
           eexists. split; [reflexivity|]. split; [reflexivity|].
           right. cbn [self]. congruence.
        -- split; [intros [st H]; discriminate|].
           intros [st1 [H [_ [H' | H']]]]; [discriminate|].
           injection H as <-. cbn [self] in H'. congruence.
    + split; [intros [st H]; discriminate|].
      intros [st1 [_ [H _]]]. discriminate.
  - destruct Hbranch as [[Hd Hi] | [T [I [Hd [Hi [HT HI]]]]]]; rewrite Hd.
    + split; [intros [st H]; discriminate|].
      intros [st1 [H H']]. injection H as <-. cbn [self] in H'. congruence.
    + erewrite format_then_write; [| reflexivity | reflexivity].
      cbn [_skip_prefixes issue_no set_commit_message set_commit_type].
      destruct (commit_type_plain T HT) as [_ Hskip].
      rewrite Hs, Hskip, Hi.
      split; [intros _ | intros _; now eexists].
      eexists. split; [reflexivity|]. cbn [self]. congruence.
Qed.

End ReturnFacts.

(** * Instances of the further properties *)

Lemma no_slash_in_develop : ~ In 47 (py "develop").
Proof. cbn. intuition discriminate. Defined.

Lemma no_slash_in_FEAT : ~ In 47 (py "FEAT").
Proof. cbn. intuition discriminate. Defined.

(** Branch [develop]. *)
Lemma unrecognised_branch_has_no_defaults_witness :
  __init__ (py "msg") (Some (py "develop")) (world_of [] []) =
  Returned tt (mkState (mkCommit (py "msg") None None None None None
                          DEFAULT_COMMIT_TYPES DEFAULT_SKIP_PREFIXES
                          (Some (py "develop" ++ [])) false) (world_of [] [])).
Proof.
  apply (unrecognised_branch_has_no_defaults (py "msg") (Some (py "develop"))
           (world_of [] []) (py "develop") []).
  - reflexivity.
  - exact no_slash_in_develop.
  - left. reflexivity.
  - reflexivity.
Defined.

(** Branch [FEAT/abc-123/x]. *)
Lemma typed_branch_yields_type_and_issue_witness :
  __init__ (py "msg") (Some (py "FEAT" ++ 47 :: py "abc-123" ++ py "/x"))
           (world_of [] []) =
  Returned tt (mkState (mkCommit (py "msg") (Some (lower (py "FEAT")))
                          (Some (py "abc-123")) None None None
                          DEFAULT_COMMIT_TYPES DEFAULT_SKIP_PREFIXES
                          (Some (py "FEAT" ++ 47 :: py "abc-123" ++ py "/x"))
                          false) (world_of [] [])).
Proof.
  apply (typed_branch_yields_type_and_issue (py "msg") (world_of [] [])
           (py "FEAT") (py "abc-123") (py "/x")).
  - exact no_slash_in_FEAT.
  - right. exists (py "x"). reflexivity.
  - reflexivity.
  - reflexivity.
Defined.

(** Branch [develop], message [feat: my message]. *)
Lemma failure_leaves_world_untouched_witness :
  ((exists text, IncompleteResolution = ValueError text)
   \/ IncompleteResolution = IndexError)
  /\ world (final (run (py "msg") (Some (py "develop"))
                       (world_of [] (py "feat: my message"))))
     = world_of [] (py "feat: my message").
Proof.
  apply (failure_leaves_world_untouched (py "msg") (Some (py "develop"))
           (world_of [] (py "feat: my message")) IncompleteResolution).
  reflexivity.
Defined.

(** Branch [feat/ABC-123/x], message [invalidtype: my message]. *)
Lemma disallowed_token_rejected_witness :
  exists st,
    run (py "msg") (Some (py "feat/ABC-123/x"))
        (world_of [] (py "invalidtype" ++ py ":" ++ py " my message"))
    = Raised (ValueError (py "Commit type '" ++ lower (py "invalidtype")
                          ++ py "' is not allowed according to conventional commit."))
             st
    /\ world st = world_of [] (py "invalidtype" ++ py ":" ++ py " my message").
Proof.
  apply (disallowed_token_rejected (py "msg") (Some (py "feat/ABC-123/x"))
           (world_of [] (py "invalidtype" ++ py ":" ++ py " my message"))
           (final (__init__ (py "msg") (Some (py "feat/ABC-123/x"))
                     (world_of [] (py "invalidtype" ++ py ":" ++ py " my message"))))
           (py "invalidtype") (py " my message")).
  - reflexivity.
  - reflexivity.
  - discriminate.
  - reflexivity.
  - reflexivity.
Defined.

(** Branch [feat/ABC-123/x], message [s: my message ]. *)
Lemma skip_prefix_passes_message_through_witness :
  exists st,
    run (py "msg") (Some (py "feat/ABC-123/x"))
        (world_of [] (py "s" ++ py ":" ++ py " my message "))
    = Returned tt st
    /\ world st = mkWorld (strip (py " my message ")) [] []
    /\ updated_commit_message (self st) = Some (strip (py " my message ")).
Proof.
  apply (skip_prefix_passes_message_through (py "msg")
           (Some (py "feat/ABC-123/x"))
           (world_of [] (py "s" ++ py ":" ++ py " my message "))
           (final (__init__ (py "msg") (Some (py "feat/ABC-123/x"))
                     (world_of [] (py "s" ++ py ":" ++ py " my message "))))
           (py "s") (py " my message ")).
  - reflexivity.
  - right. reflexivity.
  - reflexivity.
Defined.

(** Branch [feat/abc-456/x], message [FIX: my message]. *)
Lemma message_type_overrides_branch_default_witness :
  exists st,
    run (py "msg") (Some (py "feat/abc-456/x"))
        (world_of [] (py "FIX" ++ py ":" ++ py " my message"))
    = Returned tt st
    /\ message_file (world st)
       = upper (py "abc-456") ++ py "(" ++ lower (py "FIX") ++ py "): "
         ++ strip (py " my message")
    /\ updated_commit_message (self st) = Some (message_file (world st)).
Proof.
  apply (message_type_overrides_branch_default (py "msg")
           (Some (py "feat/abc-456/x"))
           (world_of [] (py "FIX" ++ py ":" ++ py " my message"))
           (final (__init__ (py "msg") (Some (py "feat/abc-456/x"))
                     (world_of [] (py "FIX" ++ py ":" ++ py " my message"))))
           (py "abc-456") (py "FIX") (py " my message")).
  - reflexivity.
  - reflexivity.
  - reflexivity.
  - discriminate.
  - reflexivity.
  - reflexivity.
Defined.

(** Checked-out branch [develop], message [my message]. *)
Lemma main_exit_one_reports_witness :
  exists fp rest text st,
    [py "msg"] = fp :: rest
    /\ run fp None (world_of (py "develop") (py "my message"))
       = Raised (ValueError text) st
    /\ snd (main [py "msg"] (world_of (py "develop") (py "my message")))
       = mkWorld (py "my message") (py "develop") ([] ++ [text]).
Proof.
  apply (main_exit_one_reports [py "msg"]
           (world_of (py "develop") (py "my message"))).
  reflexivity.
Defined.

(** Branch [feat/ABC-123/x], message [my message]. *)
Lemma success_writes_header_or_skips_witness :
  updated_commit_message
    (self (final (run (py "msg") (Some (py "feat/ABC-123/x"))
                      (world_of [] (py "my message")))))
  = Some (message_file
            (world (final (run (py "msg") (Some (py "feat/ABC-123/x"))
                               (world_of [] (py "my message"))))))
  /\ exists T I,
       default_commit_type
         (self (final (run (py "msg") (Some (py "feat/ABC-123/x"))
                           (world_of [] (py "my message")))))
       = Some T
       /\ issue_no
            (self (final (run (py "msg") (Some (py "feat/ABC-123/x"))
                              (world_of [] (py "my message")))))
          = Some I
       /\ In T DEFAULT_COMMIT_TYPES
       /\ issue_shaped (upper I) = true
       /\ message_file
            (world (final (run (py "msg") (Some (py "feat/ABC-123/x"))
                               (world_of [] (py "my message")))))
          = upper I ++ py "(" ++ T ++ py "): " ++ py "my message".
Proof.
  apply (success_writes_header_or_skips (py "msg")
           (Some (py "feat/ABC-123/x")) (world_of [] (py "my message"))
           (final (run (py "msg") (Some (py "feat/ABC-123/x"))
                       (world_of [] (py "my message"))))).
  reflexivity.
Defined.

(** Branch [feat/ABC-123/x], message [my message], twice. *)
Lemma second_pass_adds_second_header_witness :
  exists st1 st2,
    run (py "msg") (Some (py "feat/ABC-123/x")) (world_of [] (py "my message"))
    = Returned tt st1
    /\ run (py "msg") (Some (py "feat/ABC-123/x")) (world st1) = Returned tt st2
    /\ message_file (world st2)
       = (upper (py "ABC-123") ++ py "(" ++ py "feat" ++ py "): ")
         ++ (upper (py "ABC-123") ++ py "(" ++ py "feat" ++ py "): ")
         ++ py "my message".
Proof.
  apply (second_pass_adds_second_header (py "msg") (Some (py "feat/ABC-123/x"))
           (world_of [] (py "my message"))
           (final (__init__ (py "msg") (Some (py "feat/ABC-123/x"))
                     (world_of [] (py "my message"))))
           (py "feat") (py "ABC-123"));
    reflexivity.
Defined.

(** Message [feat: my message]. *)
Lemma older_token_is_newer_token_witness :
  re_search_type (py ":") (py "feat: my message") = Some (py "feat").
Proof.
  apply (older_token_is_newer_token (py "feat: my message") (py "feat")).
  reflexivity.
Defined.

(** Checked-out branch [develop], message [my message], older class. *)
Lemma older_failure_keeps_file_witness :
  message_file
    (PreCommitHooksClass.world
       (PreCommitHooksClass.mkState
          (PreCommitHooks.mkCommit (py "msg") None None
                                   (Some (py "my message")) None)
          (mkWorld (py "my message") (py "develop")
             [py "Commit type and issue_no could not be determined from branch name 'develop'.";
              py "Formatting message"])))
  = message_file (world_of (py "develop") (py "my message")).
Proof.
  apply (older_failure_keeps_file (py "msg")
           (world_of (py "develop") (py "my message"))
           (PreCommitHooksClass.Exn (ValueError PreCommitHooks.unresolved_msg))).
  reflexivity.
Defined.

(** Checked-out branch [develop], message [feat: my message]. *)
Lemma older_type_without_issue_is_uncaught_witness :
  fst (PreCommitHooksClass.main [py "msg"]
         (world_of (py "develop") (py "feat" ++ py ": " ++ py "my message")))
  = PreCommitHooksClass.Uncaught PreCommitHooksClass.AttributeError
  /\ message_file
       (snd (PreCommitHooksClass.main [py "msg"]
               (world_of (py "develop")
                  (py "feat" ++ py ": " ++ py "my message"))))
     = py "feat" ++ py ": " ++ py "my message"
  /\ main [py "msg"]
          (world_of (py "develop") (py "feat" ++ py ": " ++ py "my message"))
     = (Exit 1, mkWorld (py "feat" ++ py ": " ++ py "my message")
                        (py "develop") ([] ++ [incomplete_msg])).
Proof.
  apply (older_type_without_issue_is_uncaught (py "msg") []
           (world_of (py "develop") (py "feat" ++ py ": " ++ py "my message"))
           (py "develop") [] (py "feat") (py "my message")).
  - reflexivity.
  - exact no_slash_in_develop.
  - left. reflexivity.
  - reflexivity.
  - reflexivity.
  - discriminate.
  - reflexivity.
  - reflexivity.
Defined.

(** Checked-out branch [feat/ABC-123/x], message [fix: my message]. *)
Lemma variants_write_same_message_witness :
  fst (PreCommitHooksClass.main [py "msg"]
         (world_of (py "feat/ABC-123/x") (py "fix: my message")))
  = PreCommitHooksClass.Exit 0
  /\ message_file
       (snd (PreCommitHooksClass.main [py "msg"]
               (world_of (py "feat/ABC-123/x") (py "fix: my message"))))
     = message_file
         (snd (main [py "msg"]
                 (world_of (py "feat/ABC-123/x") (py "fix: my message")))).
Proof.
  apply (variants_write_same_message (py "msg") []
           (world_of (py "feat/ABC-123/x") (py "fix: my message"))).
  - right. exists (py "fix"), (py "my message").
    split; [reflexivity|]. split; [discriminate|]. split; [reflexivity|].
    split; reflexivity.
  - reflexivity.
Defined.

(** Checked-out branch [feat/ABC-123/x], message [fix:my message]. *)
Lemma unspaced_token_is_text_for_older_witness :
  (fst (main [py "msg"]
          (world_of (py "feat/ABC-123/x") (py "fix" ++ py ":" ++ py "my message")))
   = Exit 0
   /\ message_file
        (snd (main [py "msg"]
                (world_of (py "feat/ABC-123/x")
                   (py "fix" ++ py ":" ++ py "my message"))))
      = upper (py "ABC-123") ++ py "(" ++ lower (py "fix") ++ py "): "
        ++ strip (py "my message"))
  /\ (fst (PreCommitHooksClass.main [py "msg"]
             (world_of (py "feat/ABC-123/x")
                (py "fix" ++ py ":" ++ py "my message")))
      = PreCommitHooksClass.Exit 0
      /\ message_file
           (snd (PreCommitHooksClass.main [py "msg"]
                   (world_of (py "feat/ABC-123/x")
                      (py "fix" ++ py ":" ++ py "my message"))))
         = upper (py "ABC-123") ++ py "(" ++ py "feat" ++ py "): "
           ++ py "fix" ++ py ":" ++ py "my message").
Proof.
  apply (unspaced_token_is_text_for_older (py "msg") []
           (world_of (py "feat/ABC-123/x") (py "fix" ++ py ":" ++ py "my message"))
           (final (__init__ (py "msg") None
                     (world_of (py "feat/ABC-123/x")
                        (py "fix" ++ py ":" ++ py "my message"))))
           (py "feat") (py "ABC-123") (py "fix") (py "my message")).
  - reflexivity.
  - reflexivity.
  - reflexivity.
  - reflexivity.
  - discriminate.
  - reflexivity.
  - reflexivity.
  - reflexivity.
Defined.

(** * A line feed after the issue number *)

Section LineFeedFacts.
Context {rt : PyRuntime}.

Lemma issue_then_line_feed_not_shaped (I : str) :
  issue_shaped (I ++ [10]) = false.
Proof.
  destruct (issue_shaped (I ++ [10])) eqn:E; [|reflexivity].
  apply issue_shaped_spec in E as [l [d [_ [Hd [_ [Had Heq]]]]]].
  apply (f_equal (@rev N)) in Heq.
  rewrite !rev_app_distr in Heq. cbn [rev app] in Heq.
  destruct (rev d) as [|c t] eqn:Hr.
  - apply (f_equal (@rev N)) in Hr. rewrite rev_involutive in Hr.
    now destruct Hd.
  - cbn in Heq. injection Heq as Hc _.
    assert (Hin : In c d) by (apply in_rev; rewrite Hr; now left).
    rewrite forallb_forall in Had. specialize (Had c Hin).
    subst c. discriminate.
Qed.

(** C7, on the code: the issue pattern is written to anchor at both ends,
    but its [$] also matches just before a line feed that ends the text.
    On a branch [T/X/...] whose first segment is a commit type and whose
    second segment is an issue number followed by a line feed, the second
    segment is not letters-hyphen-digits, and yet construction returns,
    with the type and the issue number without the line feed. *)
Theorem line_feed_after_issue_accepted
  (fp : str) (w : World) (T I tail : str) :
  ~ In 47 T ->
  tail = [] \/ (exists r, tail = 47 :: r) ->
  contains DEFAULT_COMMIT_TYPES (lower T) = true ->
  issue_shaped I = true ->
  issue_shaped (I ++ [10]) = false
  /\ __init__ fp (Some (T ++ 47 :: (I ++ [10]) ++ tail)) w =
     Returned tt
       (mkState (mkCommit fp (Some (lower T)) (Some I) None None None
                   DEFAULT_COMMIT_TYPES DEFAULT_SKIP_PREFIXES
                   (Some (T ++ 47 :: (I ++ [10]) ++ tail)) false) w).
Proof.
  intros HT Htail Htype HI. split; [apply issue_then_line_feed_not_shaped|].
  assert (HX : ~ In 47 (I ++ [10])).
  { intros Hin. apply in_app_or in Hin as [Hin | [Hin | []]].
    - now apply (issue_shaped_no_slash I HI).
    - discriminate. }
  rewrite init_spec, branch_of_given.
  destruct (split_type_issue T (I ++ [10]) tail HT HX Htail) as [more ->].
  rewrite Htype.
  assert (Hre : re_search_issue (I ++ [10]) = Some I)
    by (apply re_search_issue_Some; auto).
  now rewrite Hre.
Qed.

End LineFeedFacts.

(** Branch [feat/ABC-123] with a line feed, then [/my_feat]. *)
Lemma line_feed_after_issue_accepted_witness :
  issue_shaped (py "ABC-123" ++ [10]) = false
  /\ __init__ (py "msg")
              (Some (py "feat" ++ 47 :: (py "ABC-123" ++ [10]) ++ py "/my_feat"))
              (world_of [] []) =
     Returned tt
       (mkState (mkCommit (py "msg") (Some (lower (py "feat")))
                   (Some (py "ABC-123")) None None None
                   DEFAULT_COMMIT_TYPES DEFAULT_SKIP_PREFIXES
                   (Some (py "feat" ++ 47 :: (py "ABC-123" ++ [10])
                          ++ py "/my_feat")) false) (world_of [] [])).
Proof.
  apply (line_feed_after_issue_accepted (py "msg") (world_of [] [])
           (py "feat") (py "ABC-123") (py "/my_feat")).
  - exact no_slash_in_feat.
  - right. exists (py "my_feat"). reflexivity.
  - reflexivity.
  - reflexivity.
Defined.
